(** * Digi_Lab: the lab-results portal of [app.py], embedded and verified

    The development follows the layout of [app.py]:
    - Python primitives used by the helpers ([in], [rsplit], [lower],
      [replace], [strftime], [token_hex]);
    - the helper functions ([allowed_file], [secure_filename],
      [unique_filename], [save_uploaded_file], the [get_*] queries);
    - the SQLAlchemy models as records, the tables as lists of rows, and the
      session as a pair of a persisted store and the open transaction's view;
    - the Streamlit handlers (Register, Login, Upload Result, Dashboard) as
      functions from the world before the request to the world after it and
      the message shown.

    Conventions.  A Python [str] is a [string]; [lower] is the ASCII one
    (no letter of an allowed extension is the lower-case image of a
    non-ASCII character, so the allow-list test is decided by the ASCII
    part).  A [bytes] payload is a [list byte].  Row ids are natural
    numbers.  The clock ([datetime.utcnow]) and the entropy source
    ([secrets.token_hex]) are inputs of the handlers; microseconds are not
    represented. *)

From Stdlib Require Import ZArith Ascii String Strings.Byte.
From stdpp Require Import base decidable option list sorting strings gmap.

Local Open Scope Z_scope.

(** ** Python primitives *)

(** [c in s] for a one-character [c]. *)
Fixpoint str_in (c : ascii) (s : string) : bool :=
  match s with
  | EmptyString => false
  | String a s' => if bool_decide (a = c) then true else str_in c s'
  end.

(** [s.rsplit(sep, 1)] for a one-character [sep]: the list [[head; tail]]
    cut at the last [sep], or [[s]] when [s] has no [sep]. *)
Fixpoint rsplit1 (sep : ascii) (s : string) : list string :=
  match s with
  | EmptyString => [EmptyString]
  | String a s' =>
      match rsplit1 sep s' with
      | [h; t] => [String a h; t]
      | _ => if bool_decide (a = sep) then [EmptyString; s'] else [String a s']
      end
  end.

Definition lower_ascii (c : ascii) : ascii :=
  let n := N_of_ascii c in
  if bool_decide (65 <= n <= 90)%N then ascii_of_N (n + 32) else c.

(** [s.lower()]. *)
Fixpoint lower (s : string) : string :=
  match s with
  | EmptyString => EmptyString
  | String a s' => String (lower_ascii a) (lower s')
  end.

(** [s.replace(old, new)] for one-character [old] and [new]. *)
Fixpoint replace (old new : ascii) (s : string) : string :=
  match s with
  | EmptyString => EmptyString
  | String a s' =>
      String (if bool_decide (a = old) then new else a) (replace old new s')
  end.

(** The backslash, by its code. *)
Definition backslash : ascii := "092"%char.

(** The empty string, as the widgets return it for a field left blank. *)
Definition blank : string := EmptyString.

(** Truthiness of a [str]: the empty string is falsy. *)
Definition truthy (s : string) : bool :=
  match s with EmptyString => false | _ => true end.

(** *** Dates and times *)

Record date := Date { d_year : Z; d_month : Z; d_day : Z }.

Record datetime := DateTime {
  year : Z; month : Z; day : Z; hour : Z; minute : Z; second : Z
}.

(** [datetime.combine(d, datetime.min.time())]. *)
Definition combine_min (d : date) : datetime :=
  DateTime (d_year d) (d_month d) (d_day d) 0 0 0.

Definition dt_fields (t : datetime) : list Z :=
  [year t; month t; day t; hour t; minute t; second t].

(** Chronological comparison is the lexicographic one on the fields. *)
Fixpoint lex_le (a b : list Z) : bool :=
  match a, b with
  | x :: a', y :: b' =>
      if bool_decide (x < y) then true
      else if bool_decide (y < x) then false
      else lex_le a' b'
  | _, _ => true
  end.

Definition datetime_le (s t : datetime) : Prop := lex_le (dt_fields s) (dt_fields t) = true.

#[global] Instance datetime_le_dec s t : Decision (datetime_le s t) :=
  decide (lex_le (dt_fields s) (dt_fields t) = true).

Definition digit (n : Z) : ascii := ascii_of_N (48 + Z.to_N (n mod 10)).

(** Two-digit and four-digit zero-padded decimal fields of [strftime]. *)
Definition dec2 (n : Z) : string :=
  String (digit (n / 10)) (String (digit n) EmptyString).

Definition dec4 (n : Z) : string :=
  String (digit (n / 1000)) (String (digit (n / 100)) (dec2 n)).

(** [t.strftime("%Y%m%d%H%M%S")], for the four-digit years the clock gives. *)
Definition strftime_YmdHMS (t : datetime) : string :=
  dec4 (year t) +:+ dec2 (month t) +:+ dec2 (day t) +:+
  dec2 (hour t) +:+ dec2 (minute t) +:+ dec2 (second t).

(** *** Hexadecimal tokens *)

Definition hex_digit (n : N) : ascii :=
  if bool_decide (n < 10)%N then ascii_of_N (48 + n) else ascii_of_N (87 + n).

Definition hex_of_byte (b : byte) : string :=
  let n := Byte.to_N b in
  String (hex_digit (n / 16)) (String (hex_digit (n mod 16)) EmptyString).

(** [binascii.hexlify]: two lower-case hexadecimal digits per byte. *)
Fixpoint hexlify (bs : list byte) : string :=
  match bs with
  | [] => EmptyString
  | b :: bs' => hex_of_byte b +:+ hexlify bs'
  end.

(** [secrets.token_hex(6)], given the six bytes drawn from the entropy
    source. *)
Definition token_hex (drawn : list byte) : string := hexlify drawn.

(** ** Configuration *)

Definition MAX_CONTENT_LENGTH : Z := 16 * 1024 * 1024.

Definition ALLOWED_EXTENSIONS : gset string :=
  {[ "pdf"; "png"; "jpg"; "jpeg"; "txt"; "doc"; "docx" ]}.

(** ** Helper functions *)

(** [allowed_file].  The index [[1]] is guarded by the [in] test; the
    [None] branch stands for the [IndexError] that the guard excludes
    (see [rsplit1_index1]). *)
Definition allowed_file (filename : string) : bool :=
  if negb (str_in "." filename) then false
  else
    match rsplit1 "." filename !! 1%nat with
    | Some part => bool_decide (lower part ∈ ALLOWED_EXTENSIONS)
    | None => false
    end.

Definition secure_filename (filename : string) : string :=
  replace " " "_" (replace backslash "_" (replace "/" "_" filename)).

(** [unique_filename], with the clock reading [now] and the six [drawn]
    bytes made explicit. *)
Definition unique_filename (now : datetime) (drawn : list byte) (filename : string) : string :=
  let ts := strftime_YmdHMS now in
  let salt := token_hex drawn in
  ts +:+ "_" +:+ salt +:+ "_" +:+ secure_filename filename.

(** ** Models *)

Module User.
Record t := mk {
  id : nat;
  username : string;
  email : string;
  password_hash : option string;
  user_type : string;
  phone : option string;
  created_at : datetime
}.
End User.

Module Patient.
Record t := mk {
  id : nat;
  user_id : nat;
  first_name : string;
  last_name : string;
  date_of_birth : date;
  gender : string;
  address : string;
  emergency_contact : string
}.
End Patient.

Module Doctor.
Record t := mk {
  id : nat;
  user_id : nat;
  first_name : string;
  last_name : string;
  specialization : string;
  license_number : string;
  hospital : string
}.
End Doctor.

Module LabResult.
Record t := mk {
  id : nat;
  patient_id : nat;
  test_type : string;
  test_date : datetime;
  result_date : datetime;
  status : string;
  file_path : option string;
  notes : string;
  lab_technician : option string
}.
End LabResult.

Module Notification.
Record t := mk {
  id : nat;
  lab_result_id : nat;
  notification_type : string;
  sent_at : datetime;
  status : string;
  recipient : string
}.
End Notification.

(** The five tables, each a list of rows in insertion order. *)
Record Store := mkStore {
  users : list User.t;
  patients : list Patient.t;
  doctors : list Doctor.t;
  lab_results : list LabResult.t;
  notifications : list Notification.t
}.

(** The SQLAlchemy session: what the database file holds ([persisted]) and
    what the open transaction sees ([txn]).  Queries and inserts act on
    [txn]; [commit] makes it the persisted store, [rollback] discards it. *)
Record Session := mkSession { persisted : Store; txn : Store }.

(** [st.session_state] restricted to the three keys the application uses;
    [None] is an absent key. *)
Record SessionState := mkSessionState {
  ss_user_id : option nat;
  ss_username : option string;
  ss_user_type : option string
}.

(** The world a request runs in: the database session, the files of the
    upload folder by name, and the Streamlit session state.  The upload
    folder exists (line 37), can be written to and has room; which names
    it takes is part of [write_file]. *)
Record World := mkWorld {
  db : Session;
  uploads : gmap string (list byte);
  session_state : SessionState
}.

Definition with_db (w : World) (s : Session) : World :=
  mkWorld s (uploads w) (session_state w).

Definition with_txn (w : World) (s : Store) : World :=
  with_db w (mkSession (persisted (db w)) s).

(** ** Exceptions and the request monad *)

Inductive exn :=
| ValueError (msg : string)
| AttributeError (msg : string)
| IntegrityError (msg : string)
| OSError (msg : string).

(** [str(e)]. *)
Definition str_exn (e : exn) : string :=
  match e with ValueError m | AttributeError m | IntegrityError m | OSError m => m end.

(** A statement that may change the world and may raise: changes made
    before a [raise] stay, as in Python. *)
Definition M (A : Type) : Type := World → World * (exn + A).

#[global] Instance M_ret : MRet M := λ A a w, (w, inr a).

#[global] Instance M_bind : MBind M := λ A B k m w,
  match m w with
  | (w', inr a) => k a w'
  | (w', inl e) => (w', inl e)
  end.

Definition raise {A} (e : exn) : M A := λ w, (w, inl e).

(** Reading the world does not change it. *)
Definition read {A} (f : World → A) : M A := λ w, (w, inr (f w)).

(** The messages a handler shows. *)
Inductive ui :=
| st_error (msg : string)
| st_warning (msg : string)
| st_info (msg : string)
| st_success (msg : string).

(** The error kinds of the File Store named after the [ValueError]s that
    [save_uploaded_file] raises. *)
Definition UnsupportedFileType : exn := ValueError "File type not allowed.".
Definition FileTooLarge : exn := ValueError "File too large.".

(** ** Storage operations *)

(** The next rowid of a table: one more than the largest, 1 when empty. *)
Definition fresh_id (ids : list nat) : nat := S (max_list ids).

(** [db.query(User).filter(User.username == username).first()] and its
    siblings, on the transaction's view. *)
Definition get_user_by_username (s : Store) (username : string) : option User.t :=
  head (filter (λ u, User.username u = username) (users s)).

Definition get_user_by_email (s : Store) (email : string) : option User.t :=
  head (filter (λ u, User.email u = email) (users s)).

Definition get_doctor_by_license (s : Store) (lic : string) : option Doctor.t :=
  head (filter (λ d, Doctor.license_number d = lic) (doctors s)).

(** [db.query(User).get(uid)] and [db.query(Patient).get(pid)]. *)
Definition get_user (s : Store) (uid : nat) : option User.t :=
  head (filter (λ u, User.id u = uid) (users s)).

Definition get_patient (s : Store) (pid : nat) : option Patient.t :=
  head (filter (λ p, Patient.id p = pid) (patients s)).

(** The relationship [patient.user]: the row the foreign key points to,
    [None] when there is none (SQLite does not enforce the key). *)
Definition patient_user (s : Store) (p : Patient.t) : option User.t :=
  get_user s (Patient.user_id p).

(** [db.add(row)] followed by the flush that inserts it: the row receives
    its id; a UNIQUE column already holding the value raises. *)
Definition add_user (username email : string) (password_hash : option string)
    (user_type : string) (phone : option string) (created_at : datetime) : M User.t :=
  λ w,
    let s := txn (db w) in
    if bool_decide (username ∈ User.username <$> users s) then
      (w, inl (IntegrityError "UNIQUE constraint failed: user.username"))
    else if bool_decide (email ∈ User.email <$> users s) then
      (w, inl (IntegrityError "UNIQUE constraint failed: user.email"))
    else
      let row := User.mk (fresh_id (User.id <$> users s)) username email
                         password_hash user_type phone created_at in
      (with_txn w (mkStore (users s ++ [row]) (patients s) (doctors s)
                           (lab_results s) (notifications s)), inr row).

Definition add_patient (user_id : nat) (first_name last_name : string)
    (date_of_birth : date) (gender address emergency_contact : string) : M Patient.t :=
  λ w,
    let s := txn (db w) in
    let row := Patient.mk (fresh_id (Patient.id <$> patients s)) user_id first_name
                          last_name date_of_birth gender address emergency_contact in
    (with_txn w (mkStore (users s) (patients s ++ [row]) (doctors s)
                         (lab_results s) (notifications s)), inr row).

Definition add_doctor (user_id : nat) (first_name last_name specialization
    license_number hospital : string) : M Doctor.t :=
  λ w,
    let s := txn (db w) in
    if bool_decide (license_number ∈ Doctor.license_number <$> doctors s) then
      (w, inl (IntegrityError "UNIQUE constraint failed: doctor.license_number"))
    else
      let row := Doctor.mk (fresh_id (Doctor.id <$> doctors s)) user_id first_name
                           last_name specialization license_number hospital in
      (with_txn w (mkStore (users s) (patients s) (doctors s ++ [row])
                           (lab_results s) (notifications s)), inr row).

Definition add_lab_result (patient_id : nat) (test_type : string)
    (test_date result_date : datetime) (status : string) (file_path : option string)
    (notes : string) (lab_technician : option string) : M LabResult.t :=
  λ w,
    let s := txn (db w) in
    let row := LabResult.mk (fresh_id (LabResult.id <$> lab_results s)) patient_id
                 test_type test_date result_date status file_path notes lab_technician in
    (with_txn w (mkStore (users s) (patients s) (doctors s)
                         (lab_results s ++ [row]) (notifications s)), inr row).

Definition add_notification (lab_result_id : nat) (notification_type : string)
    (sent_at : datetime) (status recipient : string) : M Notification.t :=
  λ w,
    let s := txn (db w) in
    let row := Notification.mk (fresh_id (Notification.id <$> notifications s))
                 lab_result_id notification_type sent_at status recipient in
    (with_txn w (mkStore (users s) (patients s) (doctors s)
                         (lab_results s) (notifications s ++ [row])), inr row).

(** [db.commit()] and [db.rollback()]. *)
Definition db_commit : M unit :=
  λ w, (with_db w (mkSession (txn (db w)) (txn (db w))), inr tt).

Definition db_rollback (w : World) : World :=
  with_db w (mkSession (persisted (db w)) (persisted (db w))).

(** The number of bytes of the UTF-8 encoding of [s], its characters read
    as the code points 0 to 255. *)
Fixpoint utf8_length (s : string) : nat :=
  match s with
  | EmptyString => 0%nat
  | String a s' =>
      ((if bool_decide (N_of_ascii a < 128)%N then 1 else 2) + utf8_length s')%nat
  end.

(** The longest file name, in bytes, the file system of the upload folder
    takes. *)
Definition NAME_MAX : nat := 255.

Definition NUL : ascii := "000"%char.

(** [with open(path, "wb") as f: f.write(data)] for a file of the upload
    folder.  [open] raises [ValueError] for a name that holds a NUL
    character, before any system call, and [OSError] (errno 36) for a name
    of more than [NAME_MAX] bytes; the message shows the path without the
    working directory in front. *)
Definition write_file (fname : string) (data : list byte) : M unit :=
  λ w,
    if str_in NUL fname then (w, inl (ValueError "embedded null byte"))
    else if bool_decide (NAME_MAX < utf8_length fname)%nat then
      (w, inl (OSError ("[Errno 36] File name too long: 'uploads/" +:+ fname +:+ "'")))
    else (mkWorld (db w) (<[fname := data]> (uploads w)) (session_state w), inr tt).

(** The names [write_file] takes. *)
Definition writable_name (fname : string) : bool :=
  negb (str_in NUL fname) && bool_decide (utf8_length fname ≤ NAME_MAX)%nat.

(** ** [save_uploaded_file] *)

Module UploadedFile.
(** The object [st.file_uploader] returns: its [name] and what [read()]
    gives. *)
Record t := mk { name : string; read : list byte }.
End UploadedFile.

Definition save_uploaded_file (now : datetime) (drawn : list byte)
    (uploaded_file : option UploadedFile.t) : M string :=
  match uploaded_file with
  | None => raise (ValueError "No file provided.")
  | Some uf =>
      let filename := UploadedFile.name uf in
      if negb (allowed_file filename) then raise (ValueError "File type not allowed.")
      else
        let data := UploadedFile.read uf in
        if bool_decide (MAX_CONTENT_LENGTH < Z.of_nat (length data)) then
          raise (ValueError "File too large.")
        else
          let fname := unique_filename now drawn filename in
          write_file fname data;;
          mret fname
  end.

(** ** Session helpers *)

Definition login_user_in_session (user_obj : User.t) (w : World) : World :=
  mkWorld (db w) (uploads w)
    (mkSessionState (Some (User.id user_obj)) (Some (User.username user_obj))
                    (Some (User.user_type user_obj))).

Definition logout_user_from_session (w : World) : World :=
  mkWorld (db w) (uploads w) (mkSessionState None None None).

(** Truthiness of [st.session_state.get('user_id')]: absent and 0 are
    falsy. *)
Definition truthy_id (o : option nat) : bool :=
  match o with Some (S _) => true | _ => false end.

Definition current_user (w : World) : option User.t :=
  match ss_user_id (session_state w) with
  | Some (S n) => get_user (txn (db w)) (S n)
  | _ => None
  end.

(** ** The Upload Result handler *)

Module UploadForm.
Record t := mk {
  patient_id : nat;
  test_type : string;
  test_date : date;
  result_date : date;
  notes : string;
  uploaded_file : option UploadedFile.t
}.
End UploadForm.

(** The clock readings and the entropy one upload consumes: [stamp] is
    read by [unique_filename], [drawn] by [secrets.token_hex], [sent] is
    the [default=datetime.utcnow] of [Notification.sent_at]. *)
Record UploadEnv := mkUploadEnv {
  stamp : datetime;
  drawn : list byte;
  sent : datetime
}.

(** The recipient expression
    [patient.user.phone if patient.user and patient.user.phone else patient.user.email]
    for a patient row that exists. *)
Definition choose_recipient (patient : Patient.t) : M string :=
  user ← read (λ w, patient_user (txn (db w)) patient);
  match user with
  | Some u =>
      match User.phone u with
      | Some ph => if truthy ph then mret ph else mret (User.email u)
      | None => mret (User.email u)
      end
  | None => raise (AttributeError "'NoneType' object has no attribute 'email'")
  end.

(** The [else] branch of the [try] block, lines 369 to 397. *)
Definition upload_body (env : UploadEnv) (f : UploadForm.t) : M ui :=
  saved_name ← save_uploaded_file (stamp env) (drawn env) (UploadForm.uploaded_file f);
  technician ← read (λ w, ss_username (session_state w));
  lab_result ← add_lab_result (UploadForm.patient_id f) (UploadForm.test_type f)
                 (combine_min (UploadForm.test_date f))
                 (combine_min (UploadForm.result_date f))
                 "completed" (Some saved_name) (UploadForm.notes f) technician;
  db_commit;;
  patient ← read (λ w, get_patient (txn (db w)) (UploadForm.patient_id f));
  match patient with
  | None => raise (AttributeError "'NoneType' object has no attribute 'user'")
  | Some patient =>
      recipient ← choose_recipient patient;
      add_notification (LabResult.id lab_result) "portal" (sent env) "sent" recipient;;
      db_commit;;
      mret (st_success "Lab result uploaded successfully.")
  end.

(** The handler once the form is submitted. *)
Definition upload_result (env : UploadEnv) (f : UploadForm.t) (w : World) : World * ui :=
  if negb (truthy_id (ss_user_id (session_state w)))
     || negb (bool_decide (ss_user_type (session_state w) = Some "lab_tech"))
  then (w, st_warning "Access denied. Only logged-in lab technicians can upload results.")
  else
    let attempt : M ui :=
      if negb (truthy (UploadForm.test_type f)) then
        mret (st_error "Test type is required.")
      else if bool_decide (UploadForm.uploaded_file f = None) then
        mret (st_error "Please select a result file to upload.")
      else upload_body env f in
    match attempt w with
    | (w', inr shown) => (w', shown)
    | (w', inl e) => (db_rollback w', st_error ("Upload failed: " +:+ str_exn e))
    end.

(** ** The Dashboard *)

(** [row] put in front of the first row that is not newer than it. *)
Fixpoint insert_newest_first (row : LabResult.t) (rows : list LabResult.t)
    : list LabResult.t :=
  match rows with
  | [] => [row]
  | x :: rows' =>
      if decide (datetime_le (LabResult.test_date x) (LabResult.test_date row))
      then row :: x :: rows'
      else x :: insert_newest_first row rows'
  end.

(** [.order_by(LabResult.test_date.desc())]: newest first; SQL leaves the
    order of rows of equal [test_date] open; here they keep the order of
    the table. *)
Definition order_by_test_date_desc (rows : list LabResult.t) : list LabResult.t :=
  foldr insert_newest_first [] rows.

(** What the Dashboard queries for the acting user: the rows each branch
    hands to the rendering loop. *)
Inductive view :=
| v_please_login
| v_profile_not_found
| v_patient (patient : Patient.t) (results : list LabResult.t)
| v_doctor (results : list LabResult.t)
| v_lab_tech (pending completed : list LabResult.t)
| v_nothing
| v_raised (e : exn).

Definition dashboard (w : World) : view :=
  if negb (truthy_id (ss_user_id (session_state w))) then v_please_login
  else
    let s := txn (db w) in
    match current_user w with
    | None => v_raised (AttributeError "'NoneType' object has no attribute 'user_type'")
    | Some user =>
        if bool_decide (User.user_type user = "patient") then
          match head (filter (λ p, Patient.user_id p = User.id user) (patients s)) with
          | None => v_profile_not_found
          | Some patient =>
              v_patient patient
                (order_by_test_date_desc
                   (filter (λ r, LabResult.patient_id r = Patient.id patient) (lab_results s)))
          end
        else if bool_decide (User.user_type user = "doctor") then
          v_doctor (order_by_test_date_desc (lab_results s))
        else if bool_decide (User.user_type user = "lab_tech") then
          v_lab_tech
            (filter (λ r, LabResult.status r = "pending") (lab_results s))
            (order_by_test_date_desc
               (filter (λ r, LabResult.status r = "completed") (lab_results s)))
        else v_nothing
    end.

(** ** Register and Login *)

Module RegisterForm.
(** The values of the form's widgets; [specialization], [license_number]
    and [hospital] are empty for a lab technician. *)
Record t := mk {
  role : string;
  username : string;
  email : string;
  password : string;
  phone : string;
  first_name : string;
  last_name : string;
  dob : date;
  gender : string;
  address : string;
  emergency_contact : string;
  specialization : string;
  license_number : string;
  hospital : string
}.
End RegisterForm.

Section Werkzeug.

(** [werkzeug.security]: the hashing primitives are outside the program. *)
Variable generate_password_hash : string → string.
Variable check_password_hash : string → string → bool.

(** [User.check_password]. *)
Definition check_password (self : User.t) (password : string) : bool :=
  match User.password_hash self with
  | None => false
  | Some h => if negb (truthy h) then false else check_password_hash h password
  end.

(** The [try] block of the Register handler, lines 278 to 307; [now] is
    the [default=datetime.utcnow] of [User.created_at]. *)
Definition register_body (now : datetime) (f : RegisterForm.t) : M ui :=
  user ← add_user (RegisterForm.username f) (RegisterForm.email f)
            (Some (generate_password_hash (RegisterForm.password f)))
            (RegisterForm.role f) (Some (RegisterForm.phone f)) now;
  (if bool_decide (RegisterForm.role f = "patient") then
     add_patient (User.id user) (RegisterForm.first_name f) (RegisterForm.last_name f)
       (RegisterForm.dob f) (RegisterForm.gender f) (RegisterForm.address f)
       (RegisterForm.emergency_contact f);;
     mret ()
   else if bool_decide (RegisterForm.role f = "doctor") then
     add_doctor (User.id user) (RegisterForm.first_name f) (RegisterForm.last_name f)
       (RegisterForm.specialization f) (RegisterForm.license_number f)
       (RegisterForm.hospital f);;
     mret ()
   else mret ());;
  db_commit;;
  mret (st_success "Registration successful! You can now login.").

(** The Register handler once the form is submitted. *)
Definition register (now : datetime) (f : RegisterForm.t) (w : World) : World * ui :=
  let s := txn (db w) in
  if negb (truthy (RegisterForm.username f)) || negb (truthy (RegisterForm.email f))
     || negb (truthy (RegisterForm.password f))
  then (w, st_error "Username, email and password are required.")
  else if bool_decide (is_Some (get_user_by_username s (RegisterForm.username f))) then
    (w, st_error "Username already exists. Try another.")
  else if bool_decide (is_Some (get_user_by_email s (RegisterForm.email f))) then
    (w, st_error "Email already exists. Try another.")
  else if bool_decide (RegisterForm.role f = "doctor")
          && bool_decide (is_Some (get_doctor_by_license s (RegisterForm.license_number f)))
  then (w, st_error "License number already registered.")
  else
    match register_body now f w with
    | (w', inr shown) => (w', shown)
    | (w', inl e) => (db_rollback w', st_error ("Error during registration: " +:+ str_exn e))
    end.

(** The Login handler once the form is submitted. *)
Definition login (username password : string) (w : World) : World * ui :=
  match get_user_by_username (txn (db w)) username with
  | Some user =>
      if check_password user password then
        (login_user_in_session user w, st_success ("Welcome back, " +:+ User.username user +:+ "!"))
      else (w, st_error "Login failed. Check username and password.")
  | None => (w, st_error "Login failed. Check username and password.")
  end.

End Werkzeug.

(** ** Vocabulary of the statements *)

(** The acting user is a logged-in lab technician: the first test of the
    Upload Result page passes. *)
Definition acting_lab_tech (w : World) : Prop :=
  truthy_id (ss_user_id (session_state w)) = true
  ∧ ss_user_type (session_state w) = Some "lab_tech".

(** [w'] holds the same persisted rows and the same files as [w]. *)
Definition same_storage (w w' : World) : Prop :=
  persisted (db w') = persisted (db w) ∧ uploads w' = uploads w.

(** The messages of the Register handler for a value already taken, and
    for a missing username, email or password. *)
Definition DuplicateError (shown : ui) : Prop :=
  shown = st_error "Username already exists. Try another."
  ∨ shown = st_error "Email already exists. Try another."
  ∨ shown = st_error "License number already registered.".

Definition ValidationError (shown : ui) : Prop :=
  shown = st_error "Username, email and password are required.".

(** The message of the Login handler for a failed attempt. *)
Definition AuthFailure : ui := st_error "Login failed. Check username and password.".

(** The LabResult rows a view hands to the page. *)
Definition rows_shown (v : view) : list LabResult.t :=
  match v with
  | v_patient _ results => results
  | v_doctor results => results
  | v_lab_tech pending completed => pending ++ completed
  | _ => []
  end.

(** The characters [secure_filename] replaces. *)
Definition replaced_chars : list ascii := ["/"%char; backslash; " "%char].

Definition tab : ascii := "009"%char.

(** Decoding two hexadecimal digits, the inverse of [hex_of_byte]. *)
Definition unhex_digit (c : ascii) : N :=
  let n := N_of_ascii c in
  if bool_decide (n < 58)%N then (n - 48)%N else (n - 87)%N.

Definition unhex_byte (s : string) : option byte :=
  match s with
  | String h (String l EmptyString) => Byte.of_N (16 * unhex_digit h + unhex_digit l)
  | _ => None
  end.

(** ** Fixtures *)

(** Stand-ins for the hashing primitives. *)
Definition toy_hash (password : string) : string := "h:" +:+ password.

Definition toy_check (pwhash password : string) : bool :=
  bool_decide (pwhash = toy_hash password).

Definition t_noon : datetime := DateTime 2024 3 9 12 0 0.

Definition env0 : UploadEnv :=
  mkUploadEnv (DateTime 2024 3 9 7 5 59) [x00; xab; x10; xff; x7e; x01] t_noon.

(** *** Worlds *)

Definition s_empty : Store := mkStore [] [] [] [] [].

Definition w_empty : World :=
  mkWorld (mkSession s_empty s_empty) ∅ (mkSessionState None None None).

(** An empty database with a lab technician logged in. *)
Definition w_tech : World :=
  mkWorld (mkSession s_empty s_empty) ∅
    (mkSessionState (Some 2%nat) (Some "t1") (Some "lab_tech")).

Definition alice : User.t :=
  User.mk 1 "alice" "alice@lab.org" (Some (toy_hash "secret")) "patient" (Some blank) t_noon.

Definition dr_who : User.t :=
  User.mk 2 "who" "who@lab.org" (Some (toy_hash "tardis")) "doctor" (Some blank) t_noon.

Definition bob : User.t :=
  User.mk 3 "bob" "bob@lab.org" (Some (toy_hash "hunter2")) "patient" (Some "555-0101") t_noon.

Definition tech : User.t :=
  User.mk 4 "t1" "t1@lab.org" (Some (toy_hash "y")) "lab_tech" (Some blank) t_noon.

Definition dr_who_profile : Doctor.t :=
  Doctor.mk 1 2 "Jo" "Who" "Haematology" "LIC-42" blank.

(** One patient account and one doctor, nobody logged in. *)
Definition s_clinic : Store := mkStore [alice; dr_who] [] [dr_who_profile] [] [].

Definition w_clinic : World :=
  mkWorld (mkSession s_clinic s_clinic) ∅ (mkSessionState None None None).

Definition alice_profile : Patient.t :=
  Patient.mk 1 1 "Alice" "Liddell" (Date 1990 1 2) "female" blank blank.

Definition bob_profile : Patient.t :=
  Patient.mk 2 3 "Bob" "Builder" (Date 1985 6 7) "male" blank blank.

Definition alice_cbc : LabResult.t :=
  LabResult.mk 1 1 "CBC" (DateTime 2024 3 1 0 0 0) (DateTime 2024 3 2 0 0 0)
    "completed" (Some "20240302090000_0a0b0c0d0e0f_cbc.pdf") blank (Some "t1").

Definition bob_mri : LabResult.t :=
  LabResult.mk 2 2 "MRI" (DateTime 2024 3 5 0 0 0) (DateTime 2024 3 6 0 0 0)
    "completed" (Some "20240306090000_0f0e0d0c0b0a_mri.pdf") blank (Some "t1").

(** Two patients with their accounts and one result each, and a lab
    technician. *)
Definition s_ward : Store :=
  mkStore [alice; bob; tech] [alice_profile; bob_profile] [] [alice_cbc; bob_mri] [].

(** The ward with [alice] logged in. *)
Definition w_alice : World :=
  mkWorld (mkSession s_ward s_ward) ∅
    (mkSessionState (Some 1%nat) (Some "alice") (Some "patient")).

(** The ward with the lab technician logged in. *)
Definition w_ward_tech : World :=
  mkWorld (mkSession s_ward s_ward) ∅
    (mkSessionState (Some 4%nat) (Some "t1") (Some "lab_tech")).

(** A database in which the patient row 1 points to a user row that does
    not exist (the foreign key is not enforced), with the lab technician
    logged in. *)
Definition s_orphan : Store :=
  mkStore [tech] [Patient.mk 1 9 "Carol" "Lost" (Date 1970 1 1) "female" blank blank] [] [] [].

Definition w_orphan : World :=
  mkWorld (mkSession s_orphan s_orphan) ∅
    (mkSessionState (Some 4%nat) (Some "t1") (Some "lab_tech")).

(** *** Uploads *)

Definition report : UploadedFile.t := UploadedFile.mk "report.pdf" [x25; x50; x44; x46].

(** An allowed name of 228 characters: its stored name has 256. *)
Definition long_name : string :=
  string_of_list_ascii (replicate 224 "a"%char) +:+ ".pdf".

(** A CBC for patient 1 with the given file. *)
Definition form_with (uf : UploadedFile.t) : UploadForm.t :=
  UploadForm.mk 1 "CBC" (Date 2024 3 1) (Date 2024 3 2) blank (Some uf).

(** An upload of [report] for [bob], whose account has a phone number. *)
Definition form_bob : UploadForm.t :=
  UploadForm.mk 2 "MRI" (Date 2024 3 8) (Date 2024 3 9) "follow-up" (Some report).

(** A payload of exactly 16 MiB of zero bytes, and files holding it and
    one byte more. *)
Definition payload_16MiB : list byte := replicate (Z.to_nat (16 * 1024 * 1024)) x00.

Definition scan_16MiB : UploadedFile.t := UploadedFile.mk "scan.pdf" payload_16MiB.

Definition scan_over : UploadedFile.t := UploadedFile.mk "scan.pdf" (x00 :: payload_16MiB).

(** *** Registrations *)

(** A second doctor claiming the licence number of the first. *)
Definition form_dup_license : RegisterForm.t :=
  RegisterForm.mk "doctor" "strange" "strange@lab.org" "pw" blank "Stephen" "Strange"
    (Date 1970 1 1) blank blank blank "Surgery" "LIC-42" blank.

(** A patient registration whose first and last names are left empty. *)
Definition form_nameless : RegisterForm.t :=
  RegisterForm.mk "patient" "p1" "p1@lab.org" "x" blank blank blank (Date 1990 1 2) "other"
    blank blank blank blank blank.

(** A registration without a password. *)
Definition form_no_password : RegisterForm.t :=
  RegisterForm.mk "lab_tech" "t1" "t1@lab.org" blank blank "Tec" "One" (Date 1990 1 2) blank
    blank blank blank blank blank.

(** *** The end-to-end scenario

    A patient and a lab technician register on an empty system, the
    technician logs in and uploads a report for the patient, the patient
    logs in. *)
Definition form_p1 : RegisterForm.t :=
  RegisterForm.mk "patient" "p1" "p1@lab.org" "x" blank "Pat" "One" (Date 1990 1 2) "other"
    blank blank blank blank blank.

Definition form_t1 : RegisterForm.t :=
  RegisterForm.mk "lab_tech" "t1" "t1@lab.org" "y" blank "Tec" "One" (Date 1990 1 2) blank
    blank blank blank blank blank.

Definition w_registered : World :=
  fst (register toy_hash t_noon form_t1 (fst (register toy_hash t_noon form_p1 w_empty))).

Definition w_uploaded : World :=
  fst (upload_result env0 (form_with report) (fst (login toy_check "t1" "y" w_registered))).

Definition w_p1 : World := fst (login toy_check "p1" "x" w_uploaded).

(** ** The Logout page and the download buttons *)

(** The Logout page, lines 332 to 340; [pressed] is the value of the
    "Logout now" button.  The message is [None] when only the
    "Logged in as" line is written. *)
Definition logout (pressed : bool) (w : World) : World * option ui :=
  if truthy_id (ss_user_id (session_state w)) then
    if pressed then
      (logout_user_from_session w, Some (st_success "You have been logged out."))
    else (w, None)
  else (w, Some (st_info "You are not logged in.")).

(** What the Dashboard shows for the file of one result: nothing when the
    row has no file reference, a download button with the bytes read from
    the upload folder, or the warning of the [FileNotFoundError] branch. *)
Inductive download :=
| no_file
| download_button (data : list byte) (file_name : string)
| file_not_found.

(** The [if res.file_path:] block of the rendering loops, lines 438 to
    450, for a file reference that names a file of the upload folder. *)
Definition render_download (w : World) (res : LabResult.t) : download :=
  match LabResult.file_path res with
  | Some path =>
      if truthy path then
        match uploads w !! path with
        | Some data => download_button data path
        | None => file_not_found
        end
      else no_file
  | None => no_file
  end.

(** ** Further vocabulary *)

(** No change is pending in the session: the state between two requests. *)
Definition quiescent (w : World) : Prop := txn (db w) = persisted (db w).

(** The allow-list as a list. *)
Definition allowed_list : list string :=
  ["pdf"; "png"; "jpg"; "jpeg"; "txt"; "doc"; "docx"].

(** The constraints on the account tables: primary keys, the UNIQUE
    columns, at most one patient row and one doctor row per user, and
    every profile row pointing to a user row of the matching role. *)
Record accounts_ok (s : Store) : Prop := mk_accounts_ok {
  ok_user_ids : NoDup (User.id <$> users s);
  ok_usernames : NoDup (User.username <$> users s);
  ok_emails : NoDup (User.email <$> users s);
  ok_patient_ids : NoDup (Patient.id <$> patients s);
  ok_doctor_ids : NoDup (Doctor.id <$> doctors s);
  ok_licenses : NoDup (Doctor.license_number <$> doctors s);
  ok_patient_users : NoDup (Patient.user_id <$> patients s);
  ok_doctor_users : NoDup (Doctor.user_id <$> doctors s);
  ok_patient_user : ∀ p, p ∈ patients s →
    ∃ u, u ∈ users s ∧ User.id u = Patient.user_id p ∧ User.user_type u = "patient";
  ok_doctor_user : ∀ d, d ∈ doctors s →
    ∃ u, u ∈ users s ∧ User.id u = Doctor.user_id d ∧ User.user_type u = "doctor"
}.

(** The store [s] with the rows [lr] and, after it, [nts] appended to the
    result and notification tables. *)
Definition with_result (s : Store) (lr : LabResult.t) (nts : list Notification.t) : Store :=
  mkStore (users s) (patients s) (doctors s) (lab_results s ++ [lr]) (notifications s ++ nts).

(** Newest first. *)
Definition newer_first (a b : LabResult.t) : Prop :=
  datetime_le (LabResult.test_date b) (LabResult.test_date a).

(** The constraints the schema declares on the result tables: primary
    keys, and every notification pointing to a result row. *)
Record results_ok (s : Store) : Prop := mk_results_ok {
  ok_result_ids : NoDup (LabResult.id <$> lab_results s);
  ok_notification_ids : NoDup (Notification.id <$> notifications s);
  ok_notification_result : ∀ n, n ∈ notifications s →
    ∃ r, r ∈ lab_results s ∧ LabResult.id r = Notification.lab_result_id n
}.

(** A patient form for the clinic and an upload without test type. *)
Definition form_untyped : UploadForm.t :=
  UploadForm.mk 1 blank (Date 2024 3 1) (Date 2024 3 2) blank (Some report).


(** * Properties *)

(** ** Python primitives *)

Lemma str_in_app c a b : str_in c (a +:+ b) = str_in c a || str_in c b.
Proof.
  induction a as [|x a IH]; simpl; [done|].
  case_bool_decide; [done|]. apply IH.
Qed.

Lemma rsplit1_no_sep sep s : str_in sep s = false → rsplit1 sep s = [s].
Proof.
  induction s as [|a s IH]; simpl; [done|].
  case_bool_decide; [done|]. intros Hs. by rewrite IH.
Qed.

Lemma rsplit1_last sep base ext :
  str_in sep ext = false →
  rsplit1 sep (base +:+ String sep ext) = [base; ext].
Proof.
  intros Hext. induction base as [|a base IH]; simpl.
  - rewrite rsplit1_no_sep by done. by rewrite bool_decide_eq_true_2.
  - by rewrite IH.
Qed.

Lemma rsplit1_cut sep s :
  str_in sep s = true →
  ∃ h t, rsplit1 sep s = [h; t] ∧ s = h +:+ String sep t ∧ str_in sep t = false.
Proof.
  induction s as [|a s IH]; simpl; [done|].
  destruct (str_in sep s) eqn:Hs.
  - intros _. destruct IH as (h & t & -> & -> & Ht); [done|].
    by exists (String a h), t.
  - rewrite rsplit1_no_sep by done.
    case_bool_decide as Ha; [|done]. intros _. subst a.
    by exists EmptyString, s.
Qed.

Lemma rsplit1_index1 sep s :
  str_in sep s = true → is_Some (rsplit1 sep s !! 1%nat).
Proof. intros (h & t & -> & _)%rsplit1_cut. by exists t. Qed.

Lemma allowed_file_no_dot filename :
  str_in "." filename = false → allowed_file filename = false.
Proof. intros H. unfold allowed_file. by rewrite H. Qed.

Lemma allowed_file_ext base ext :
  str_in "." ext = false →
  allowed_file (base +:+ String "." ext) = bool_decide (lower ext ∈ ALLOWED_EXTENSIONS).
Proof.
  intros H. unfold allowed_file.
  rewrite str_in_app. simpl. rewrite orb_true_r. simpl.
  by rewrite rsplit1_last.
Qed.

(** ** File Store *)

Lemma save_rejects_type now drawn uf w :
  allowed_file (UploadedFile.name uf) = false →
  save_uploaded_file now drawn (Some uf) w = (w, inl UnsupportedFileType).
Proof. intros H. unfold save_uploaded_file. by rewrite H. Qed.

Lemma save_rejects_size now drawn uf w :
  allowed_file (UploadedFile.name uf) = true →
  MAX_CONTENT_LENGTH < Z.of_nat (length (UploadedFile.read uf)) →
  save_uploaded_file now drawn (Some uf) w = (w, inl FileTooLarge).
Proof.
  intros H Hlen. unfold save_uploaded_file. rewrite H. simpl.
  by rewrite bool_decide_eq_true_2.
Qed.

Lemma write_file_writable fname data w :
  writable_name fname = true →
  write_file fname data w
  = (mkWorld (db w) (<[fname := data]> (uploads w)) (session_state w), inr ()).
Proof.
  unfold writable_name, write_file. intros [Hnul Hlen]%andb_true_iff.
  apply negb_true_iff in Hnul. apply bool_decide_eq_true_1 in Hlen.
  rewrite Hnul, bool_decide_eq_false_2 by lia. done.
Qed.

Lemma write_file_unwritable fname data w :
  writable_name fname = false → ∃ e, write_file fname data w = (w, inl e).
Proof.
  unfold writable_name, write_file. destruct (str_in NUL fname); [by eexists|].
  cbn [negb andb]. intros Hlen%bool_decide_eq_false_1.
  rewrite bool_decide_eq_true_2 by lia. by eexists.
Qed.

Lemma save_accepts now drawn uf w :
  allowed_file (UploadedFile.name uf) = true →
  Z.of_nat (length (UploadedFile.read uf)) ≤ MAX_CONTENT_LENGTH →
  writable_name (unique_filename now drawn (UploadedFile.name uf)) = true →
  save_uploaded_file now drawn (Some uf) w
  = (mkWorld (db w)
       (<[unique_filename now drawn (UploadedFile.name uf) := UploadedFile.read uf]> (uploads w))
       (session_state w),
     inr (unique_filename now drawn (UploadedFile.name uf))).
Proof.
  intros H Hlen Hname. unfold save_uploaded_file. rewrite H. cbn [negb].
  rewrite bool_decide_eq_false_2 by lia.
  unfold mbind, M_bind. by rewrite write_file_writable.
Qed.

(** A file that passes both tests under a name the upload folder does not
    take: [open] raises, nothing is written. *)
Lemma save_rejects_name now drawn uf w :
  allowed_file (UploadedFile.name uf) = true →
  Z.of_nat (length (UploadedFile.read uf)) ≤ MAX_CONTENT_LENGTH →
  writable_name (unique_filename now drawn (UploadedFile.name uf)) = false →
  ∃ e, save_uploaded_file now drawn (Some uf) w = (w, inl e).
Proof.
  intros H Hlen Hname. unfold save_uploaded_file. rewrite H. cbn [negb].
  rewrite bool_decide_eq_false_2 by lia.
  destruct (write_file_unwritable _ (UploadedFile.read uf) w Hname) as [e He].
  exists e. unfold mbind, M_bind. by rewrite He.
Qed.

(** When [save_uploaded_file] raises without touching the world, the
    handler writes nothing, whoever is acting and whatever the form holds. *)
Lemma upload_result_put_raises env f w uf e :
  UploadForm.uploaded_file f = Some uf →
  save_uploaded_file (stamp env) (drawn env) (Some uf) w = (w, inl e) →
  same_storage w (fst (upload_result env f w))
  ∧ (acting_lab_tech w → truthy (UploadForm.test_type f) = true →
     upload_result env f w = (db_rollback w, st_error ("Upload failed: " +:+ str_exn e))).
Proof.
  intros Hf Hsave. unfold upload_result, upload_body. rewrite Hf.
  rewrite (bool_decide_eq_false_2 (Some uf = None)) by done.
  split.
  - destruct (_ || _); [done|].
    destruct (negb (truthy _)); [done|].
    unfold mbind, M_bind. by rewrite Hsave.
  - intros [-> ->] ->.
    rewrite bool_decide_eq_true_2 by done. cbn [negb orb].
    unfold mbind, M_bind. by rewrite Hsave.
Qed.

(** C10.  A filename without any ['.'] is not allowed: [allowed_file]
    returns [False], [save_uploaded_file] raises "File type not allowed."
    without touching the world, and the Upload Result handler writes no
    row and no file, showing that error to a lab technician who filled the
    test type. *)
Theorem C10_no_dot_rejected (filename : string) (data : list byte) :
  str_in "." filename = false →
  let uf := UploadedFile.mk filename data in
  allowed_file filename = false
  ∧ (∀ now drawn w,
       save_uploaded_file now drawn (Some uf) w = (w, inl UnsupportedFileType))
  ∧ (∀ env f w,
       UploadForm.uploaded_file f = Some uf →
       same_storage w (fst (upload_result env f w))
       ∧ (acting_lab_tech w → truthy (UploadForm.test_type f) = true →
          upload_result env f w
          = (db_rollback w, st_error "Upload failed: File type not allowed."))).
Proof.
  intros Hdot uf. pose proof (allowed_file_no_dot _ Hdot) as Hno.
  split; [done|]. split.
  - intros. by apply save_rejects_type.
  - intros env f w Hf.
    apply (upload_result_put_raises env f w uf UnsupportedFileType Hf).
    by apply save_rejects_type.
Qed.

Lemma C10_witness :
  allowed_file "README" = false
  ∧ upload_result env0 (form_with (UploadedFile.mk "README" [x41])) w_tech
    = (db_rollback w_tech, st_error "Upload failed: File type not allowed.").
Proof.
  destruct (C10_no_dot_rejected "README" [x41]) as (Hno & _ & Hup); [reflexivity|].
  split; [exact Hno|].
  apply (Hup env0 (form_with (UploadedFile.mk "README" [x41])) w_tech eq_refl).
  - split; reflexivity.
  - reflexivity.
Defined.

(** C3.  For a file with an allowed name, a payload of exactly
    16*1024*1024 bytes passes the size test: it is written under the
    stored name whenever the upload folder takes that name (no NUL, at most
    255 bytes); any longer payload makes [save_uploaded_file] raise
    "File too large." with the world untouched, and the Upload Result
    handler then leaves the persisted rows (no LabResult, no Notification)
    and the upload folder (no new file) as they were. *)
Theorem C3_size (env : UploadEnv) (f : UploadForm.t) (uf : UploadedFile.t) (w : World) :
  UploadForm.uploaded_file f = Some uf →
  allowed_file (UploadedFile.name uf) = true →
  (Z.of_nat (length (UploadedFile.read uf)) = 16 * 1024 * 1024 →
   let stored_name := unique_filename (stamp env) (drawn env) (UploadedFile.name uf) in
   writable_name stored_name = true →
   save_uploaded_file (stamp env) (drawn env) (Some uf) w
   = (mkWorld (db w) (<[stored_name := UploadedFile.read uf]> (uploads w)) (session_state w),
      inr stored_name))
  ∧ (16 * 1024 * 1024 < Z.of_nat (length (UploadedFile.read uf)) →
     save_uploaded_file (stamp env) (drawn env) (Some uf) w = (w, inl FileTooLarge)
     ∧ same_storage w (fst (upload_result env f w))
     ∧ (acting_lab_tech w → truthy (UploadForm.test_type f) = true →
        upload_result env f w = (db_rollback w, st_error "Upload failed: File too large."))).
Proof.
  intros Hf Hok. split.
  - intros Hlen stored_name Hname. apply save_accepts; [done| |done].
    unfold MAX_CONTENT_LENGTH. lia.
  - intros Hlen.
    assert (Hsave : save_uploaded_file (stamp env) (drawn env) (Some uf) w = (w, inl FileTooLarge)).
    { apply save_rejects_size; [done|]. unfold MAX_CONTENT_LENGTH. lia. }
    split; [done|]. exact (upload_result_put_raises env f w uf FileTooLarge Hf Hsave).
Qed.

Lemma payload_16MiB_length : Z.of_nat (length payload_16MiB) = 16 * 1024 * 1024.
Proof. unfold payload_16MiB. rewrite length_replicate. apply Z2Nat.id. lia. Qed.

Lemma scan_16MiB_length :
  Z.of_nat (length (UploadedFile.read scan_16MiB)) = 16 * 1024 * 1024.
Proof. exact payload_16MiB_length. Qed.

Lemma payload_over_length :
  16 * 1024 * 1024 < Z.of_nat (length (UploadedFile.read scan_over)).
Proof.
  change (UploadedFile.read scan_over) with (x00 :: payload_16MiB).
  rewrite length_cons, Nat2Z.inj_succ, payload_16MiB_length. lia.
Qed.

Lemma C3_witness :
  save_uploaded_file (stamp env0) (drawn env0) (Some scan_16MiB) w_tech
  = (mkWorld (db w_tech)
       (<[unique_filename (stamp env0) (drawn env0) (UploadedFile.name scan_16MiB)
          := UploadedFile.read scan_16MiB]> (uploads w_tech))
       (session_state w_tech),
     inr (unique_filename (stamp env0) (drawn env0) (UploadedFile.name scan_16MiB)))
  ∧ upload_result env0 (form_with scan_over) w_tech
    = (db_rollback w_tech, st_error "Upload failed: File too large.").
Proof.
  split.
  - exact (proj1 (C3_size env0 (form_with scan_16MiB) scan_16MiB w_tech eq_refl eq_refl)
             scan_16MiB_length eq_refl).
  - exact (proj2 (proj2 (proj2 (C3_size env0 (form_with scan_over) scan_over w_tech
                                   eq_refl eq_refl) payload_over_length))
             (conj eq_refl eq_refl) eq_refl).
Defined.

(** C4.  A filename [base.ext] whose part after the last ['.'], lower-cased,
    is outside the allow-list is refused by [save_uploaded_file] with
    "File type not allowed." and an untouched world; the handler writes
    neither a row nor a file, and shows that error to a lab technician who
    filled the test type.  The error differs from "File too large.". *)
Theorem C4_unsupported_type (base ext : string) (data : list byte) :
  str_in "." ext = false →
  lower ext ∉ ALLOWED_EXTENSIONS →
  let uf := UploadedFile.mk (base +:+ String "." ext) data in
  (∀ now drawn w,
     save_uploaded_file now drawn (Some uf) w = (w, inl UnsupportedFileType))
  ∧ (∀ env f w,
       UploadForm.uploaded_file f = Some uf →
       same_storage w (fst (upload_result env f w))
       ∧ (acting_lab_tech w → truthy (UploadForm.test_type f) = true →
          upload_result env f w
          = (db_rollback w, st_error "Upload failed: File type not allowed.")))
  ∧ UnsupportedFileType ≠ FileTooLarge.
Proof.
  intros Hext Hout uf.
  assert (Hsave : ∀ now drawn w,
             save_uploaded_file now drawn (Some uf) w = (w, inl UnsupportedFileType)).
  { intros. apply save_rejects_type. simpl.
    rewrite allowed_file_ext by done. by apply bool_decide_eq_false_2. }
  split; [done|]. split; [|done].
  intros env f w Hf.
  exact (upload_result_put_raises env f w uf UnsupportedFileType Hf (Hsave _ _ w)).
Qed.

Lemma exe_not_allowed : lower "EXE" ∉ ALLOWED_EXTENSIONS.
Proof. apply (bool_decide_eq_false_1 _). vm_compute. reflexivity. Qed.

Lemma C4_witness :
  upload_result env0 (form_with (UploadedFile.mk "setup.EXE" [x4d; x5a])) w_tech
  = (db_rollback w_tech, st_error "Upload failed: File type not allowed.").
Proof.
  exact (proj2 (proj1 (proj2 (C4_unsupported_type "setup" "EXE" [x4d; x5a]
                                 eq_refl exe_not_allowed))
                  env0 (form_with (UploadedFile.mk "setup.EXE" [x4d; x5a])) w_tech eq_refl)
           (conj eq_refl eq_refl) eq_refl).
Defined.

(** ** The stored-name generator *)

Lemma unhex_hex_of_byte b : unhex_byte (hex_of_byte b) = Some b.
Proof. destruct b; vm_compute; reflexivity. Qed.

Lemma hex_of_byte_inj a b : hex_of_byte a = hex_of_byte b → a = b.
Proof.
  intros H. apply (f_equal unhex_byte) in H.
  rewrite !unhex_hex_of_byte in H. congruence.
Qed.

Lemma hexlify_cons b bs :
  ∃ h l, hex_of_byte b = String h (String l EmptyString)
         ∧ hexlify (b :: bs) = String h (String l (hexlify bs)).
Proof. simpl. unfold hex_of_byte. eauto. Qed.

Lemma hexlify_length bs : String.length (hexlify bs) = (2 * length bs)%nat.
Proof.
  induction bs as [|b bs IH]; [done|].
  destruct (hexlify_cons b bs) as (h & l & _ & ->). simpl. rewrite IH. lia.
Qed.

Lemma hexlify_inj bs1 bs2 : hexlify bs1 = hexlify bs2 → bs1 = bs2.
Proof.
  revert bs2. induction bs1 as [|a bs1 IH]; intros [|b bs2] H; [done|..].
  - destruct (hexlify_cons b bs2) as (h & l & _ & E). rewrite E in H. done.
  - destruct (hexlify_cons a bs1) as (h & l & _ & E). rewrite E in H. done.
  - destruct (hexlify_cons a bs1) as (h & l & Ea & E).
    destruct (hexlify_cons b bs2) as (h' & l' & Eb & E').
    rewrite E, E' in H. simplify_eq. f_equal; [|by apply IH].
    apply hex_of_byte_inj. congruence.
Qed.

Lemma app_length_inj (a a' b b' : string) :
  String.length a = String.length a' →
  a +:+ b = a' +:+ b' → a = a' ∧ b = b'.
Proof.
  revert a'. induction a as [|x a IH]; intros [|x' a'] Hlen H; simplify_eq/=; [done|].
  destruct (IH a') as [-> ->]; done.
Qed.

Lemma strftime_length t : String.length (strftime_YmdHMS t) = 14%nat.
Proof. reflexivity. Qed.

Lemma unique_filename_inj now1 now2 d1 d2 f1 f2 :
  length d1 = length d2 →
  unique_filename now1 d1 f1 = unique_filename now2 d2 f2 →
  strftime_YmdHMS now1 = strftime_YmdHMS now2 ∧ d1 = d2
  ∧ secure_filename f1 = secure_filename f2.
Proof.
  intros Hlen H. unfold unique_filename, token_hex in H.
  apply (app_length_inj (strftime_YmdHMS now1) (strftime_YmdHMS now2)) in H as [Hts H];
    [|by rewrite !strftime_length].
  simpl in H. injection H as H.
  apply (app_length_inj (hexlify d1) (hexlify d2)) in H as [Hsalt H];
    [|by rewrite !hexlify_length, Hlen].
  simpl in H. injection H as H.
  by apply hexlify_inj in Hsalt.
Qed.

Lemma replace_removes old new s :
  new ≠ old → str_in old (replace old new s) = false.
Proof.
  intros Hne. induction s as [|a s IH]; simpl; [done|].
  rewrite IH. repeat case_bool_decide; congruence.
Qed.

Lemma replace_keeps_out c old new s :
  c ≠ new → str_in c s = false → str_in c (replace old new s) = false.
Proof.
  intros Hne. induction s as [|a s IH]; simpl; [done|].
  case_bool_decide as Ha; [done|]. intros Hs. rewrite IH by done.
  repeat case_bool_decide; congruence.
Qed.

Lemma secure_filename_clean c filename :
  c ∈ replaced_chars → str_in c (secure_filename filename) = false.
Proof.
  unfold replaced_chars, secure_filename. rewrite !elem_of_cons, elem_of_nil.
  intros [->|[->|[->|[]]]].
  - do 2 (apply replace_keeps_out; [done|]). by apply replace_removes.
  - apply replace_keeps_out; [done|]. by apply replace_removes.
  - by apply replace_removes.
Qed.

Lemma digit_code n : (48 ≤ N_of_ascii (digit n) ≤ 57)%N.
Proof.
  unfold digit. pose proof (Z.mod_pos_bound n 10 eq_refl) as Hm.
  rewrite N_ascii_embedding by lia. lia.
Qed.

Lemma digit_clean c n : c ∈ replaced_chars → bool_decide (digit n = c) = false.
Proof.
  unfold replaced_chars. rewrite !elem_of_cons, elem_of_nil.
  pose proof (digit_code n) as Hd.
  intros Hc. apply bool_decide_eq_false_2. intros E. rewrite E in Hd.
  destruct Hc as [->|[->|[->|[]]]]; vm_compute in Hd; destruct Hd as [H1 H2];
    by (apply H1 || apply H2).
Qed.

Lemma strftime_clean c t : c ∈ replaced_chars → str_in c (strftime_YmdHMS t) = false.
Proof.
  intros Hc. unfold strftime_YmdHMS, dec4, dec2. simpl.
  by rewrite !(digit_clean c _ Hc).
Qed.

Lemma hex_of_byte_clean c b : c ∈ replaced_chars → str_in c (hex_of_byte b) = false.
Proof.
  unfold replaced_chars. rewrite !elem_of_cons, elem_of_nil.
  intros [->|[->|[->|[]]]]; destruct b; vm_compute; reflexivity.
Qed.

Lemma hexlify_clean c bs : c ∈ replaced_chars → str_in c (hexlify bs) = false.
Proof.
  intros Hc. induction bs as [|b bs IH]; [done|].
  change (hexlify (b :: bs)) with (hex_of_byte b +:+ hexlify bs).
  by rewrite str_in_app, hex_of_byte_clean, IH.
Qed.

Lemma unique_filename_clean c now drawn filename :
  c ∈ replaced_chars → str_in c (unique_filename now drawn filename) = false.
Proof.
  intros Hc. unfold unique_filename, token_hex.
  rewrite !str_in_app, strftime_clean, hexlify_clean, secure_filename_clean by done.
  simpl. rewrite bool_decide_eq_false_2; [done|].
  intros <-. unfold replaced_chars in Hc.
  rewrite !elem_of_cons, elem_of_nil in Hc. by destruct Hc as [?|[?|[?|[]]]].
Qed.

(** C9, amended.  Two calls that draw different six-byte salts produce
    different stored names, whatever the clock readings and the original
    filenames (identical ones included); and no generated name holds a
    ['/'], a backslash or a space. *)
Theorem C9_names_differ_and_clean now1 now2 (drawn1 drawn2 : list byte) (f1 f2 : string) :
  length drawn1 = 6%nat → length drawn2 = 6%nat → drawn1 ≠ drawn2 →
  unique_filename now1 drawn1 f1 ≠ unique_filename now2 drawn2 f2
  ∧ ∀ c, c ∈ replaced_chars → str_in c (unique_filename now1 drawn1 f1) = false.
Proof.
  intros H1 H2 Hne. split.
  - intros E. apply unique_filename_inj in E as (_ & E & _); [done|congruence].
  - intros c Hc. by apply unique_filename_clean.
Qed.

Lemma C9_witness :
  unique_filename t_noon [x00; xab; x10; xff; x7e; x01] "report.pdf"
  ≠ unique_filename t_noon [x00; xab; x10; xff; x7e; x02] "report.pdf".
Proof.
  apply (C9_names_differ_and_clean t_noon t_noon
           [x00; xab; x10; xff; x7e; x01] [x00; xab; x10; xff; x7e; x02]
           "report.pdf" "report.pdf"); [reflexivity|reflexivity|discriminate].
Defined.

(** C9 as stated fails twice: two calls in the same second that draw the
    same six bytes return the same name for the same original filename,
    and a tab of the original filename is kept in the stored name. *)
Lemma C9_counterexample :
  (unique_filename t_noon [x00; xab; x10; xff; x7e; x01] "report.pdf"
   = "20240309120000_00ab10ff7e01_report.pdf"
   ∧ unique_filename t_noon [x00; xab; x10; xff; x7e; x01] "report.pdf"
     = "20240309120000_00ab10ff7e01_report.pdf")
  ∧ str_in tab (unique_filename t_noon [x00; xab; x10; xff; x7e; x01]
                  (String "a" (String tab "b.pdf"))) = true.
Proof. vm_compute. done. Qed.

(** ** Login and Register *)

(** C6.  A login attempt with a username that matches no user and one with
    an existing username and a wrong password end the same way: the world
    is unchanged and the same "Login failed." message is shown. *)
Theorem C6_auth_failure_uniform (check : string → string → bool) (w : World)
    (u1 p1 u2 p2 : string) (user : User.t) :
  get_user_by_username (txn (db w)) u1 = None →
  get_user_by_username (txn (db w)) u2 = Some user →
  check_password check user p2 = false →
  login check u1 p1 w = login check u2 p2 w
  ∧ login check u2 p2 w = (w, AuthFailure).
Proof.
  intros Hnone Hsome Hbad. unfold login. by rewrite Hnone, Hsome, Hbad.
Qed.

Lemma C6_witness :
  login toy_check "nobody" "anything" w_clinic = login toy_check "alice" "wrong" w_clinic
  ∧ login toy_check "alice" "wrong" w_clinic = (w_clinic, AuthFailure).
Proof.
  apply (C6_auth_failure_uniform toy_check w_clinic "nobody" "anything" "alice" "wrong" alice);
    reflexivity.
Defined.

Lemma get_doctor_by_license_found s d :
  d ∈ doctors s → is_Some (get_doctor_by_license s (Doctor.license_number d)).
Proof.
  intros Hd. unfold get_doctor_by_license. apply head_is_Some.
  intros E. by apply (filter_nil_not_elem_of _ _ d E).
Qed.

(** C5.  Registering a doctor with the licence number of an existing
    doctor never changes the world (no User row is added); when username,
    email and password are filled in, the message is one of the three
    "already exists / already registered" messages, and it is the licence
    one when the username and the email are free. *)
Theorem C5_duplicate_license (hash : string → string) (now : datetime)
    (f : RegisterForm.t) (w : World) (d : Doctor.t) :
  RegisterForm.role f = "doctor" →
  d ∈ doctors (txn (db w)) →
  Doctor.license_number d = RegisterForm.license_number f →
  fst (register hash now f w) = w
  ∧ (truthy (RegisterForm.username f) = true → truthy (RegisterForm.email f) = true →
     truthy (RegisterForm.password f) = true →
     DuplicateError (snd (register hash now f w))
     ∧ (get_user_by_username (txn (db w)) (RegisterForm.username f) = None →
        get_user_by_email (txn (db w)) (RegisterForm.email f) = None →
        snd (register hash now f w) = st_error "License number already registered.")).
Proof.
  intros Hrole Hd Hlic.
  pose proof (get_doctor_by_license_found _ _ Hd) as Hfound. rewrite Hlic in Hfound.
  unfold register. rewrite Hrole.
  rewrite (bool_decide_eq_true_2 ("doctor" = "doctor")) by done.
  rewrite (bool_decide_eq_true_2 _ Hfound). cbn [andb].
  split.
  - destruct (_ || _); [done|]. by repeat case_bool_decide.
  - intros -> -> ->. cbn [negb orb]. unfold DuplicateError. split.
    + repeat case_bool_decide; simpl; eauto.
    + intros -> ->. rewrite !bool_decide_eq_false_2; [done|..]; by intros [? ?].
Qed.

Lemma C5_witness :
  fst (register toy_hash t_noon form_dup_license w_clinic) = w_clinic
  ∧ snd (register toy_hash t_noon form_dup_license w_clinic)
    = st_error "License number already registered.".
Proof.
  destruct (C5_duplicate_license toy_hash t_noon form_dup_license w_clinic dr_who_profile)
    as [Hw H]; [reflexivity|vm_compute; left|reflexivity|].
  split; [exact Hw|]. apply H; reflexivity.
Defined.

(** C8, amended.  For every role, a registration whose username, email or
    password is empty is refused with "Username, email and password are
    required." and changes nothing. *)
Theorem C8_required_fields (hash : string → string) (now : datetime)
    (f : RegisterForm.t) (w : World) :
  RegisterForm.username f = EmptyString ∨ RegisterForm.email f = EmptyString ∨ RegisterForm.password f = EmptyString →
  fst (register hash now f w) = w ∧ ValidationError (snd (register hash now f w)).
Proof.
  unfold register, ValidationError.
  intros [ -> | [ -> | -> ] ]; simpl; [done|..]; by repeat destruct (truthy _).
Qed.

Lemma C8_witness :
  fst (register toy_hash t_noon form_no_password w_empty) = w_empty
  ∧ ValidationError (snd (register toy_hash t_noon form_no_password w_empty)).
Proof.
  apply (C8_required_fields toy_hash t_noon form_no_password w_empty).
  right; right; reflexivity.
Defined.

(** C8 as stated fails: a patient registration with an empty first and last
    name is accepted and its User and Patient rows are persisted. *)
Lemma C8_counterexample :
  RegisterForm.role form_nameless = "patient"
  ∧ RegisterForm.first_name form_nameless = EmptyString
  ∧ snd (register toy_hash t_noon form_nameless w_empty)
    = st_success "Registration successful! You can now login."
  ∧ User.username <$> users (persisted (db (fst (register toy_hash t_noon form_nameless w_empty))))
    = ["p1"]
  ∧ Patient.first_name <$> patients (persisted (db (fst (register toy_hash t_noon form_nameless w_empty))))
    = [EmptyString].
Proof. vm_compute. done. Qed.

(** ** The Dashboard *)

Lemma head_filter_Some {A} (P : A → Prop) `{!∀ x, Decision (P x)} (l : list A) (x : A) :
  head (filter P l) = Some x → P x ∧ x ∈ l.
Proof.
  intros Hx. apply head_Some_elem_of in Hx. by apply list_elem_of_filter in Hx.
Qed.

Lemma NoDup_fmap_eq {A B} (f : A → B) (l : list A) (x y : A) :
  NoDup (f <$> l) → x ∈ l → y ∈ l → f x = f y → x = y.
Proof.
  induction l as [|a l IH]; [by intros _ ?%elem_of_nil|].
  rewrite fmap_cons, NoDup_cons, !elem_of_cons.
  intros [Ha Hl] [->|Hx] [->|Hy] E; auto.
  - destruct Ha. rewrite E. by apply list_elem_of_fmap_2.
  - destruct Ha. rewrite <- E. by apply list_elem_of_fmap_2.
Qed.

Lemma current_user_Some w user :
  current_user w = Some user →
  truthy_id (ss_user_id (session_state w)) = true
  ∧ ss_user_id (session_state w) = Some (User.id user)
  ∧ user ∈ users (txn (db w)).
Proof.
  unfold current_user, get_user.
  destruct (ss_user_id _) as [[|n]|]; simpl; try done.
  intros [<- Hin]%head_filter_Some. done.
Qed.

Lemma insert_newest_first_perm row rows : insert_newest_first row rows ≡ₚ row :: rows.
Proof.
  induction rows as [|x rows IH]; [done|]. simpl. case_decide; [done|].
  rewrite IH. apply Permutation_swap.
Qed.

Lemma order_by_perm rows : order_by_test_date_desc rows ≡ₚ rows.
Proof.
  unfold order_by_test_date_desc. induction rows as [|x rows IH]; [done|].
  simpl. by rewrite insert_newest_first_perm, IH.
Qed.

Lemma order_by_test_date_desc_elem r rows :
  r ∈ order_by_test_date_desc rows ↔ r ∈ rows.
Proof. by rewrite order_by_perm. Qed.

(** C1.  For a logged-in user whose role is patient, every LabResult row
    the Dashboard returns is a row of the table that points to a Patient
    profile of that user; the primary key on Patient makes that profile the
    only one the row points to, so no row of another patient is returned. *)
Theorem C1_patient_rows_are_own (w : World) (user : User.t) (r : LabResult.t) :
  current_user w = Some user →
  User.user_type user = "patient" →
  NoDup (Patient.id <$> patients (txn (db w))) →
  r ∈ rows_shown (dashboard w) →
  r ∈ lab_results (txn (db w))
  ∧ (∃ p, p ∈ patients (txn (db w)) ∧ Patient.user_id p = User.id user
          ∧ LabResult.patient_id r = Patient.id p)
  ∧ (∀ q, q ∈ patients (txn (db w)) → LabResult.patient_id r = Patient.id q →
          Patient.user_id q = User.id user).
Proof.
  intros Hcur Hrole Hpk. unfold dashboard.
  destruct (current_user_Some _ _ Hcur) as (-> & _ & _). rewrite Hcur, Hrole.
  cbn [negb]. rewrite bool_decide_eq_true_2 by done.
  destruct (head (filter _ (patients _))) as [p|] eqn:Hp; [|by intros ?%elem_of_nil].
  apply head_filter_Some in Hp as [Hpu Hpin].
  cbn [rows_shown]. rewrite order_by_test_date_desc_elem, list_elem_of_filter.
  intros [Hr Hrin]. split; [done|]. split; [by exists p|].
  intros q Hq Hrq. rewrite <- Hpu. f_equal.
  apply (NoDup_fmap_eq Patient.id _ _ _ Hpk Hq Hpin). congruence.
Qed.

Lemma C1_witness :
  alice_cbc ∈ lab_results (txn (db w_alice))
  ∧ (∃ p, p ∈ patients (txn (db w_alice)) ∧ Patient.user_id p = User.id alice
          ∧ LabResult.patient_id alice_cbc = Patient.id p)
  ∧ (∀ q, q ∈ patients (txn (db w_alice)) → LabResult.patient_id alice_cbc = Patient.id q →
          Patient.user_id q = User.id alice).
Proof.
  apply (C1_patient_rows_are_own w_alice alice alice_cbc).
  - reflexivity.
  - reflexivity.
  - apply (bool_decide_eq_true_1 _). reflexivity.
  - vm_compute. left.
Defined.

(** ** The Upload Result handler *)

Lemma save_uploaded_file_inv now drawn uf w w' stored :
  save_uploaded_file now drawn (Some uf) w = (w', inr stored) →
  stored = unique_filename now drawn (UploadedFile.name uf)
  ∧ w' = mkWorld (db w) (<[stored := UploadedFile.read uf]> (uploads w)) (session_state w).
Proof.
  unfold save_uploaded_file.
  destruct (negb _); [done|]. case_bool_decide; [done|].
  unfold mbind, M_bind, write_file, mret, M_ret.
  destruct (str_in NUL _); [done|]. case_bool_decide; [done|]. by intros [= <- <-].
Qed.

Lemma choose_recipient_inv patient w w' recipient :
  choose_recipient patient w = (w', inr recipient) →
  w' = w
  ∧ ∃ user, patient_user (txn (db w)) patient = Some user
      ∧ (∀ ph, User.phone user = Some ph → ph ≠ EmptyString → recipient = ph)
      ∧ (User.phone user = None ∨ User.phone user = Some EmptyString → recipient = User.email user).
Proof.
  unfold choose_recipient, mbind, M_bind, read, mret, M_ret, raise.
  destruct (patient_user _ _) as [user|]; [|done].
  destruct (User.phone user) as [[|c ph]|] eqn:Hph; simpl; intros [= <- <-];
    (split; [done|]); exists user; rewrite Hph; (split; [done|]); split;
    solve [ by intros ph' [= <-] | by intros [?|?] | done ].
Qed.

(** C7.  When the Upload Result handler reports success, the persisted
    store is the one before with one LabResult and one Notification added:
    the LabResult has status "completed", the stored name returned by
    [save_uploaded_file] as file reference and the session's username as
    lab technician; the Notification points to it, has type "portal" and
    status "sent", and its recipient is the phone of the patient's user
    when that is a non-empty string and the user's email otherwise. *)
Theorem C7_upload_rows (env : UploadEnv) (f : UploadForm.t) (w w' : World) :
  upload_result env f w = (w', st_success "Lab result uploaded successfully.") →
  ∃ uf patient user lab_result notification,
    let s := txn (db w) in
    let stored_name := unique_filename (stamp env) (drawn env) (UploadedFile.name uf) in
    UploadForm.uploaded_file f = Some uf
    ∧ uploads w' = <[stored_name := UploadedFile.read uf]> (uploads w)
    ∧ persisted (db w')
      = mkStore (users s) (patients s) (doctors s)
          (lab_results s ++ [lab_result]) (notifications s ++ [notification])
    ∧ LabResult.status lab_result = "completed"
    ∧ LabResult.file_path lab_result = Some stored_name
    ∧ LabResult.lab_technician lab_result = ss_username (session_state w)
    ∧ LabResult.patient_id lab_result = UploadForm.patient_id f
    ∧ Notification.lab_result_id notification = LabResult.id lab_result
    ∧ Notification.notification_type notification = "portal"
    ∧ Notification.status notification = "sent"
    ∧ get_patient s (UploadForm.patient_id f) = Some patient
    ∧ patient_user s patient = Some user
    ∧ (∀ ph, User.phone user = Some ph → ph ≠ EmptyString → Notification.recipient notification = ph)
    ∧ (User.phone user = None ∨ User.phone user = Some EmptyString →
       Notification.recipient notification = User.email user).
Proof.
  unfold upload_result.
  destruct (_ || _); [done|].
  destruct (negb (truthy _)); [done|].
  destruct (UploadForm.uploaded_file f) as [uf|] eqn:Hf; [|done].
  rewrite bool_decide_eq_false_2 by done.
  unfold upload_body. rewrite Hf. unfold mbind at 1. unfold M_bind at 1.
  destruct (save_uploaded_file _ _ _ _) as [w1 [e|stored]] eqn:Hsave; [done|].
  apply save_uploaded_file_inv in Hsave as [-> ->].
  unfold mbind, M_bind, read, add_lab_result, db_commit, add_notification, with_txn, with_db.
  cbn -[choose_recipient unique_filename].
  destruct (get_patient _ _) as [patient|] eqn:Hpat; [|done].
  destruct (choose_recipient _ _) as [w2 [e|recipient]] eqn:Hrec; [done|].
  apply choose_recipient_inv in Hrec as (-> & user & Huser & Hph & Hem).
  cbn. intros [= <-].
  eexists uf, patient, user, _, _. cbn.
  repeat split; try done.
Qed.

Lemma C7_witness :
  ∃ lab_result notification,
    persisted (db (fst (upload_result env0 form_bob w_ward_tech)))
    = mkStore [alice; bob; tech] [alice_profile; bob_profile] []
        [alice_cbc; bob_mri; lab_result] [notification]
    ∧ LabResult.status lab_result = "completed"
    ∧ LabResult.file_path lab_result = Some "20240309070559_00ab10ff7e01_report.pdf"
    ∧ LabResult.lab_technician lab_result = Some "t1"
    ∧ Notification.notification_type notification = "portal"
    ∧ Notification.status notification = "sent"
    ∧ Notification.recipient notification = "555-0101".
Proof.
  destruct (C7_upload_rows env0 form_bob w_ward_tech
              (fst (upload_result env0 form_bob w_ward_tech)))
    as (uf & patient & user & lr & nt & Hf & _ & Hst & Hs & Hfp & Hlt & _ & _ & Hnt & Hns
        & Hgp & Hpu & Hph & _).
  { vm_compute. reflexivity. }
  injection Hf as <-. injection Hgp as <-. injection Hpu as <-.
  exists lr, nt. rewrite Hst, Hs, Hfp, Hlt, Hnt, Hns.
  rewrite (Hph "555-0101" eq_refl) by discriminate.
  repeat split.
Defined.

(** C2 fails on the code: the LabResult is committed before the
    Notification is built.  With a patient row whose user row is missing,
    the recipient expression raises after that commit; the handler rolls
    back and reports the failure, yet the LabResult stays persisted without
    any Notification. *)
Theorem C2_partial_commit :
  snd (upload_result env0 (form_with report) w_orphan)
  = st_error "Upload failed: 'NoneType' object has no attribute 'email'"
  ∧ LabResult.test_type <$> lab_results (persisted (db (fst (upload_result env0 (form_with report) w_orphan))))
    = ["CBC"]
  ∧ notifications (persisted (db (fst (upload_result env0 (form_with report) w_orphan)))) = []
  ∧ lab_results (persisted (db w_orphan)) = [].
Proof. vm_compute. done. Qed.

(** ** Worked examples *)

Example allowed_file_upper : allowed_file "report.PDF" = true.
Proof. vm_compute. reflexivity. Qed.

Example allowed_file_last_extension : allowed_file "a.pdf.exe" = false.
Proof. vm_compute. reflexivity. Qed.

Example allowed_file_trailing_dot : allowed_file "report." = false.
Proof. vm_compute. reflexivity. Qed.

Example unique_filename_sanitised :
  unique_filename (DateTime 2024 3 9 7 5 59) [x00; xab; x10; xff; x7e; x01] "my report/x.pdf"
  = "20240309070559_00ab10ff7e01_my_report_x.pdf".
Proof. vm_compute. reflexivity. Qed.

Example end_to_end_rows :
  LabResult.status <$> lab_results (persisted (db w_uploaded)) = ["completed"]
  ∧ Notification.recipient <$> notifications (persisted (db w_uploaded)) = ["p1@lab.org"]
  ∧ uploads w_uploaded !! "20240309070559_00ab10ff7e01_report.pdf"
    = Some (UploadedFile.read report).
Proof. vm_compute. done. Qed.

Example end_to_end_patient_view :
  LabResult.test_type <$> rows_shown (dashboard w_p1) = ["CBC"].
Proof. vm_compute. reflexivity. Qed.

Example long_name_refused :
  allowed_file long_name = true
  ∧ writable_name (unique_filename (stamp env0) (drawn env0) long_name) = false
  ∧ fst (upload_result env0 (form_with (UploadedFile.mk long_name [x25])) w_ward_tech)
    = w_ward_tech
  ∧ snd (upload_result env0 (form_with (UploadedFile.mk long_name [x25])) w_ward_tech)
    ≠ st_success "Lab result uploaded successfully.".
Proof. vm_compute. done. Qed.

Example order_keeps_ties :
  LabResult.id <$>
    order_by_test_date_desc
      [alice_cbc;
       LabResult.mk 2 2 "MRI" (DateTime 2024 3 5 0 0 0) (DateTime 2024 3 6 0 0 0)
         "completed" None blank None;
       LabResult.mk 3 1 "ECG" (DateTime 2024 3 5 0 0 0) (DateTime 2024 3 6 0 0 0)
         "completed" None blank None]
  = [2; 3; 1]%nat.
Proof. vm_compute. reflexivity. Qed.

(** * Further properties *)

(** ** File names *)

Lemma elem_of_allowed ext : ext ∈ ALLOWED_EXTENSIONS ↔ ext ∈ allowed_list.
Proof.
  unfold ALLOWED_EXTENSIONS, allowed_list.
  rewrite !elem_of_union, !elem_of_singleton, !elem_of_cons, elem_of_nil. tauto.
Qed.

(** [allowed_file] accepts exactly the names [base.ext] whose part after
    the last ['.'] is, once lower-cased, one of the seven extensions; the
    part before the last ['.'] plays no role. *)
Theorem allowed_file_iff (filename : string) :
  allowed_file filename = true
  ↔ ∃ base ext, filename = base +:+ String "." ext
                ∧ str_in "." ext = false ∧ lower ext ∈ allowed_list.
Proof.
  split.
  - unfold allowed_file. destruct (str_in "." filename) eqn:Hdot; [|done].
    destruct (rsplit1_cut _ _ Hdot) as (h & t & -> & -> & Ht). simpl.
    intros Hin%bool_decide_eq_true_1. exists h, t. by rewrite <- elem_of_allowed.
  - intros (base & ext & -> & Hext & Hin). rewrite allowed_file_ext by done.
    apply bool_decide_eq_true_2. by apply elem_of_allowed.
Qed.

Lemma allowed_file_iff_witness : allowed_file "scan.v2.JPEG" = true.
Proof.
  apply (allowed_file_iff "scan.v2.JPEG"). exists "scan.v2", "JPEG".
  split; [reflexivity|]. split; [reflexivity|].
  unfold allowed_list. rewrite !elem_of_cons. auto.
Defined.

Lemma replace_absent old new s : str_in old s = false → replace old new s = s.
Proof.
  induction s as [|a s IH]; simpl; [done|].
  case_bool_decide; [done|]. intros Hs. by rewrite IH.
Qed.

Lemma replace_length old new s : String.length (replace old new s) = String.length s.
Proof. induction s as [|a s IH]; simpl; [done|]. by rewrite IH. Qed.

Lemma secure_filename_fixes_clean filename :
  (∀ c, c ∈ replaced_chars → str_in c filename = false) →
  secure_filename filename = filename.
Proof.
  intros Hc. unfold secure_filename.
  assert (Hin : ∀ c, c ∈ replaced_chars → str_in c filename = false) by done.
  unfold replaced_chars in Hin. setoid_rewrite elem_of_cons in Hin.
  setoid_rewrite elem_of_cons in Hin. setoid_rewrite elem_of_cons in Hin.
  rewrite (replace_absent "/") by auto.
  rewrite (replace_absent backslash) by auto.
  apply replace_absent. auto.
Qed.

(** [secure_filename] keeps the length of the name, leaves a name without
    ['/'], backslash and space as it is, and applying it twice is the same
    as applying it once. *)
Theorem secure_filename_shape (filename : string) :
  String.length (secure_filename filename) = String.length filename
  ∧ secure_filename (secure_filename filename) = secure_filename filename
  ∧ ((∀ c, c ∈ replaced_chars → str_in c filename = false) →
     secure_filename filename = filename).
Proof.
  split; [|split].
  - unfold secure_filename. by rewrite !replace_length.
  - apply secure_filename_fixes_clean. intros c Hc. by apply secure_filename_clean.
  - apply secure_filename_fixes_clean.
Qed.

Lemma secure_filename_shape_witness :
  secure_filename "cbc_2024.pdf" = "cbc_2024.pdf".
Proof.
  apply (secure_filename_shape "cbc_2024.pdf").
  intros c Hc. unfold replaced_chars in Hc.
  rewrite !elem_of_cons, elem_of_nil in Hc.
  destruct Hc as [->|[->|[->|[]]]]; reflexivity.
Defined.

Lemma append_length a b : String.length (a +:+ b) = (String.length a + String.length b)%nat.
Proof. induction a as [|x a IH]; simpl; [done|]. by rewrite IH. Qed.

(** With six drawn bytes the stored name is the original name, sanitised
    in place, behind a prefix of 28 characters: it is 28 characters longer
    and never empty. *)
Theorem unique_filename_length now (drawn : list byte) (filename : string) :
  length drawn = 6%nat →
  String.length (unique_filename now drawn filename) = (28 + String.length filename)%nat
  ∧ truthy (unique_filename now drawn filename) = true.
Proof.
  intros Hd. unfold unique_filename, token_hex. split; [|done].
  rewrite !append_length, strftime_length, hexlify_length, Hd.
  unfold secure_filename. rewrite !replace_length. simpl. lia.
Qed.

Lemma unique_filename_length_witness :
  String.length (unique_filename t_noon (drawn env0) "report.pdf") = (28 + 10)%nat
  ∧ truthy (unique_filename t_noon (drawn env0) "report.pdf") = true.
Proof. apply (unique_filename_length t_noon (drawn env0) "report.pdf"). reflexivity. Defined.

(** ** [save_uploaded_file] *)

(** When [save_uploaded_file] returns a name, the file of that name holds
    the bytes read, every other file is as before, the database and the
    session are untouched, and the file had an allowed name and at most
    16 MiB. *)
Theorem save_uploaded_file_roundtrip now drawn (uf : UploadedFile.t) (w w' : World)
    (stored : string) :
  save_uploaded_file now drawn (Some uf) w = (w', inr stored) →
  uploads w' !! stored = Some (UploadedFile.read uf)
  ∧ (∀ other, other ≠ stored → uploads w' !! other = uploads w !! other)
  ∧ db w' = db w ∧ session_state w' = session_state w
  ∧ allowed_file (UploadedFile.name uf) = true
  ∧ Z.of_nat (length (UploadedFile.read uf)) ≤ 16 * 1024 * 1024.
Proof.
  unfold save_uploaded_file.
  destruct (allowed_file _) eqn:Hok; [|done]. simpl.
  case_bool_decide as Hlen; [done|].
  unfold mbind, M_bind, write_file, mret, M_ret.
  destruct (str_in NUL _); [done|]. case_bool_decide; [done|].
  intros [= <- <-]. simpl.
  rewrite lookup_insert_eq. repeat split; try done.
  - intros other Hne. by rewrite lookup_insert_ne.
  - unfold MAX_CONTENT_LENGTH in Hlen. lia.
Qed.

Lemma save_uploaded_file_roundtrip_witness :
  uploads (fst (save_uploaded_file (stamp env0) (drawn env0) (Some report) w_tech))
    !! "20240309070559_00ab10ff7e01_report.pdf"
  = Some (UploadedFile.read report).
Proof.
  apply (save_uploaded_file_roundtrip (stamp env0) (drawn env0) report w_tech
           (fst (save_uploaded_file (stamp env0) (drawn env0) (Some report) w_tech))
           "20240309070559_00ab10ff7e01_report.pdf").
  vm_compute. reflexivity.
Defined.

(** ** Register *)

Lemma head_filter_None {A} (P : A → Prop) `{!∀ x, Decision (P x)} (l : list A) :
  head (filter P l) = None ↔ ∀ x, x ∈ l → ¬ P x.
Proof.
  rewrite head_None. split.
  - intros E x Hx HP. by apply (filter_nil_not_elem_of _ _ x E).
  - intros Hall. induction l as [|a l IH]; [done|].
    rewrite filter_cons_False; [|apply Hall; left].
    apply IH. intros x Hx. apply Hall. by right.
Qed.

Lemma not_is_Some_head_filter {A B} `{EqDecision B} (f : A → B) (b : B) (l : list A) :
  ¬ is_Some (head (filter (λ x, f x = b) l)) ↔ b ∉ (f <$> l).
Proof.
  rewrite <- eq_None_not_Some, head_filter_None, list_elem_of_fmap. split.
  - intros Hall (x & -> & Hx). by apply (Hall x).
  - intros Hno x Hx E. apply Hno. by exists x.
Qed.

Lemma is_Some_head_filter {A B} `{EqDecision B} (f : A → B) (b : B) (l : list A) :
  is_Some (head (filter (λ x, f x = b) l)) ↔ b ∈ f <$> l.
Proof.
  split.
  - intros [x [<- Hx]%head_filter_Some]. by apply list_elem_of_fmap_2.
  - intros (x & -> & Hx)%list_elem_of_fmap. apply head_is_Some.
    intros E. by apply (filter_nil_not_elem_of _ _ x E).
Qed.

Lemma fresh_id_fresh ids : fresh_id ids ∉ ids.
Proof.
  intros Hin. apply max_list_elem_of_le in Hin. unfold fresh_id in Hin. lia.
Qed.

(** The outcomes of the Register handler: a refusal that leaves the world
    as it is, or a success that commits the new user row [u] and the
    profile rows [pp] and [pd] of its role. *)
Lemma register_inv hash now f w :
  let s := txn (db w) in
  let r := register hash now f w in
  (fst r = w ∧ (ValidationError (snd r) ∨ DuplicateError (snd r)))
  ∨ ∃ u pp pd,
      snd r = st_success "Registration successful! You can now login."
      ∧ (let s' := mkStore (users s ++ [u]) (patients s ++ pp) (doctors s ++ pd)
                     (lab_results s) (notifications s) in
         fst r = mkWorld (mkSession s' s') (uploads w) (session_state w))
      ∧ u = User.mk (fresh_id (User.id <$> users s)) (RegisterForm.username f)
              (RegisterForm.email f) (Some (hash (RegisterForm.password f)))
              (RegisterForm.role f) (Some (RegisterForm.phone f)) now
      ∧ truthy (RegisterForm.username f) = true
      ∧ truthy (RegisterForm.email f) = true
      ∧ truthy (RegisterForm.password f) = true
      ∧ (RegisterForm.username f ∉ User.username <$> users s)
      ∧ (RegisterForm.email f ∉ User.email <$> users s)
      ∧ ((RegisterForm.role f = "patient" ∧ pd = []
          ∧ pp = [Patient.mk (fresh_id (Patient.id <$> patients s)) (User.id u)
                    (RegisterForm.first_name f) (RegisterForm.last_name f)
                    (RegisterForm.dob f) (RegisterForm.gender f)
                    (RegisterForm.address f) (RegisterForm.emergency_contact f)])
         ∨ (RegisterForm.role f = "doctor" ∧ pp = []
            ∧ (RegisterForm.license_number f ∉ Doctor.license_number <$> doctors s)
            ∧ pd = [Doctor.mk (fresh_id (Doctor.id <$> doctors s)) (User.id u)
                      (RegisterForm.first_name f) (RegisterForm.last_name f)
                      (RegisterForm.specialization f) (RegisterForm.license_number f)
                      (RegisterForm.hospital f)])
         ∨ (RegisterForm.role f ≠ "patient" ∧ RegisterForm.role f ≠ "doctor"
            ∧ pp = [] ∧ pd = [])).
Proof.
  intros s r. subst r. unfold register. fold s.
  destruct (truthy (RegisterForm.username f)) eqn:Hu; [|left; split; [done|by left]].
  destruct (truthy (RegisterForm.email f)) eqn:He; [|left; split; [done|by left]].
  destruct (truthy (RegisterForm.password f)) eqn:Hp; [|left; split; [done|by left]].
  cbn [negb orb].
  case_bool_decide as Hun; [left; split; [done|right; by left]|].
  case_bool_decide as Hem; [left; split; [done|right; right; by left]|].
  apply not_is_Some_head_filter in Hun, Hem.
  unfold register_body, add_user, mbind, M_bind. fold s.
  rewrite (bool_decide_eq_false_2 _ Hun), (bool_decide_eq_false_2 _ Hem).
  case_bool_decide as Hdoc.
  - (* doctor *)
    case_bool_decide as Hlic; [left; split; [done|right; right; by right]|].
    apply not_is_Some_head_filter in Hlic.
    rewrite (bool_decide_eq_false_2 (RegisterForm.role f = "patient")) by (rewrite Hdoc; done).
    unfold add_doctor. cbn -[fresh_id]. fold s.
    rewrite (bool_decide_eq_false_2 _ Hlic). cbn -[fresh_id].
    right. eexists _, [], [_]. split; [done|]. split.
    { cbn -[fresh_id]. rewrite app_nil_r. done. }
    split; [reflexivity|]. repeat (split; [done|]).
    right; left. done.
  - cbn [andb]. case_bool_decide as Hpat.
    + unfold add_patient. cbn -[fresh_id]. fold s.
      right. eexists _, [_], []. split; [done|]. split.
      { cbn -[fresh_id]. rewrite app_nil_r. done. }
      split; [reflexivity|]. repeat (split; [done|]).
      left. done.
    + cbn -[fresh_id]. fold s.
      right. eexists _, [], []. split; [done|]. split.
      { cbn -[fresh_id]. rewrite !app_nil_r. done. }
      split; [reflexivity|]. repeat (split; [done|]).
      right; right. done.
Qed.

Lemma NoDup_fmap_snoc {A B} (f : A → B) (l : list A) (x : A) :
  NoDup (f <$> l) → f x ∉ (f <$> l) → NoDup (f <$> (l ++ [x])).
Proof.
  intros Hl Hx. rewrite fmap_app. apply NoDup_app. split; [done|]. split.
  - intros y Hy [->|[]%elem_of_nil]%elem_of_cons. done.
  - apply NoDup_singleton.
Qed.

(** The Register handler ends in one of three ways: the message for a
    missing username, email or password, one of the three messages for a
    value already taken, or success.  The pre-checks cover the UNIQUE
    columns, so the insert never raises and "Error during registration" is
    never shown. *)
Theorem register_outcomes hash now (f : RegisterForm.t) (w : World) :
  ValidationError (snd (register hash now f w))
  ∨ DuplicateError (snd (register hash now f w))
  ∨ snd (register hash now f w) = st_success "Registration successful! You can now login.".
Proof.
  destruct (register_inv hash now f w) as [[_ [?|?]]|(u & pp & pd & Hs & _)]; auto.
Qed.

(** The Register handler is all or nothing: a refusal returns the world it
    was given; a success commits exactly one user row carrying the form's
    username, email and role and the hash of the password, together with
    one patient row for a patient, one doctor row for a doctor and no
    profile row otherwise, each pointing to the new user; results and
    notifications are not touched. *)
Theorem register_all_or_nothing hash now (f : RegisterForm.t) (w : World) :
  let s := txn (db w) in
  let w' := fst (register hash now f w) in
  let s' := persisted (db w') in
  w' = w
  ∨ ∃ u, txn (db w') = s'
      ∧ users s' = users s ++ [u]
      ∧ User.username u = RegisterForm.username f
      ∧ User.email u = RegisterForm.email f
      ∧ User.user_type u = RegisterForm.role f
      ∧ User.password_hash u = Some (hash (RegisterForm.password f))
      ∧ lab_results s' = lab_results s ∧ notifications s' = notifications s
      ∧ uploads w' = uploads w ∧ session_state w' = session_state w
      ∧ ((RegisterForm.role f = "patient" ∧ doctors s' = doctors s
          ∧ ∃ p, patients s' = patients s ++ [p] ∧ Patient.user_id p = User.id u)
         ∨ (RegisterForm.role f = "doctor" ∧ patients s' = patients s
            ∧ ∃ d, doctors s' = doctors s ++ [d] ∧ Doctor.user_id d = User.id u
                   ∧ Doctor.license_number d = RegisterForm.license_number f)
         ∨ (RegisterForm.role f ≠ "patient" ∧ RegisterForm.role f ≠ "doctor"
            ∧ patients s' = patients s ∧ doctors s' = doctors s)).
Proof.
  intros s w' s'. subst s' w'.
  destruct (register_inv hash now f w)
    as [[Hw _]|(u & pp & pd & _ & Hw & Hu & _ & _ & _ & _ & _ & Hrole)]; [by left|].
  right. exists u. cbn zeta in Hw. rewrite Hw. cbn. fold s.
  split; [done|]. split; [done|]. rewrite Hu at 1 2 3 4. cbn.
  repeat (split; [done|]).
  destruct Hrole as [(Hr & -> & ->)|[(Hr & -> & _ & ->)|(H1 & H2 & -> & ->)]].
  - left. rewrite app_nil_r. eauto.
  - right; left. rewrite app_nil_r. split; [done|]. split; [done|]. eauto.
  - right; right. by rewrite !app_nil_r.
Qed.

(** The Register handler keeps the constraints of the account tables
    (unique ids, usernames, emails and licence numbers, at most one
    profile of each kind per user, every profile pointing to a user of its
    role): from a world without pending changes whose persisted store
    satisfies them, it reaches such a world again. *)
Theorem register_keeps_accounts_ok hash now (f : RegisterForm.t) (w : World) :
  quiescent w →
  accounts_ok (persisted (db w)) →
  quiescent (fst (register hash now f w))
  ∧ accounts_ok (persisted (db (fst (register hash now f w)))).
Proof.
  intros Hq Hok.
  destruct (register_inv hash now f w)
    as [[-> _]|(u & pp & pd & _ & Hw & Hu & _ & _ & _ & Hun & Hem & Hrole)]; [done|].
  cbn zeta in Hw. rewrite Hw. split; [done|]. cbn.
  unfold quiescent in Hq. rewrite Hq in *.
  destruct Hok as [Hi Hn He Hpi Hdi Hl Hpus Hdus Hpu Hdu].
  assert (Hid : User.id u = fresh_id (User.id <$> users (persisted (db w)))) by by rewrite Hu.
  assert (Hname : User.username u = RegisterForm.username f) by by rewrite Hu.
  assert (Hmail : User.email u = RegisterForm.email f) by by rewrite Hu.
  assert (Htype : User.user_type u = RegisterForm.role f) by by rewrite Hu.
  clear Hu.
  assert (Hold_p : ∀ p, p ∈ patients (persisted (db w)) →
            ∃ u0, u0 ∈ users (persisted (db w)) ++ [u] ∧ User.id u0 = Patient.user_id p
                  ∧ User.user_type u0 = "patient").
  { intros p Hp. destruct (Hpu p Hp) as (u0 & ? & ? & ?).
    exists u0. rewrite elem_of_app. auto. }
  assert (Hold_d : ∀ d, d ∈ doctors (persisted (db w)) →
            ∃ u0, u0 ∈ users (persisted (db w)) ++ [u] ∧ User.id u0 = Doctor.user_id d
                  ∧ User.user_type u0 = "doctor").
  { intros d Hd. destruct (Hdu d Hd) as (u0 & ? & ? & ?).
    exists u0. rewrite elem_of_app. auto. }
  assert (Hu_in : u ∈ users (persisted (db w)) ++ [u]).
  { rewrite elem_of_app, list_elem_of_singleton. by right. }
  split; cbn.
  - apply NoDup_fmap_snoc; [done|]. rewrite Hid. apply fresh_id_fresh.
  - apply NoDup_fmap_snoc; [done|]. by rewrite Hname.
  - apply NoDup_fmap_snoc; [done|]. by rewrite Hmail.
  - destruct Hrole as [(_ & _ & ->)|[(_ & -> & _)|(_ & _ & -> & _)]];
      rewrite ?app_nil_r; [|done..].
    apply NoDup_fmap_snoc; [done|]. apply fresh_id_fresh.
  - destruct Hrole as [(_ & -> & _)|[(_ & _ & _ & ->)|(_ & _ & _ & ->)]];
      rewrite ?app_nil_r; [done| |done].
    apply NoDup_fmap_snoc; [done|]. apply fresh_id_fresh.
  - destruct Hrole as [(_ & -> & _)|[(_ & _ & Hlic & ->)|(_ & _ & _ & ->)]];
      rewrite ?app_nil_r; [done| |done].
    by apply NoDup_fmap_snoc.
  - destruct Hrole as [(_ & _ & ->)|[(_ & -> & _)|(_ & _ & -> & _)]];
      rewrite ?app_nil_r; [|done..].
    apply NoDup_fmap_snoc; [done|]. cbn. rewrite Hid.
    intros (p & Hfresh & Hp)%list_elem_of_fmap.
    destruct (Hpu p Hp) as (u0 & Hu0 & Hu0id & _).
    apply (fresh_id_fresh (User.id <$> users (persisted (db w)))).
    rewrite Hfresh, <- Hu0id. by apply list_elem_of_fmap_2.
  - destruct Hrole as [(_ & -> & _)|[(_ & _ & _ & ->)|(_ & _ & _ & ->)]];
      rewrite ?app_nil_r; [done| |done].
    apply NoDup_fmap_snoc; [done|]. cbn. rewrite Hid.
    intros (d & Hfresh & Hd)%list_elem_of_fmap.
    destruct (Hdu d Hd) as (u0 & Hu0 & Hu0id & _).
    apply (fresh_id_fresh (User.id <$> users (persisted (db w)))).
    rewrite Hfresh, <- Hu0id. by apply list_elem_of_fmap_2.
  - destruct Hrole as [(Hr & _ & ->)|[(_ & -> & _)|(_ & _ & -> & _)]];
      rewrite ?app_nil_r; [|done..].
    intros p [Hp| ->%list_elem_of_singleton]%elem_of_app; [by apply Hold_p|].
    exists u. cbn. by rewrite Htype.
  - destruct Hrole as [(_ & -> & _)|[(Hr & _ & _ & ->)|(_ & _ & _ & ->)]];
      rewrite ?app_nil_r; [done| |done].
    intros d [Hd| ->%list_elem_of_singleton]%elem_of_app; [by apply Hold_d|].
    exists u. cbn. by rewrite Htype.
Qed.

Lemma s_clinic_ok : accounts_ok s_clinic.
Proof.
  split; try (apply (bool_decide_eq_true_1 _); reflexivity).
  - intros p []%elem_of_nil.
  - intros d ->%list_elem_of_singleton. exists dr_who. split; [|done].
    right. left.
Qed.

Lemma register_keeps_accounts_ok_witness :
  quiescent (fst (register toy_hash t_noon form_p1 w_clinic))
  ∧ accounts_ok (persisted (db (fst (register toy_hash t_noon form_p1 w_clinic)))).
Proof.
  apply (register_keeps_accounts_ok toy_hash t_noon form_p1 w_clinic).
  - reflexivity.
  - exact s_clinic_ok.
Defined.

Lemma get_user_by_username_snoc s' (us : list User.t) (u : User.t) :
  users s' = us ++ [u] →
  User.username u ∉ User.username <$> us →
  get_user_by_username s' (User.username u) = Some u.
Proof.
  intros Hus Hnew. unfold get_user_by_username. rewrite Hus.
  rewrite filter_app, filter_cons_True, filter_nil by done.
  assert (filter (λ u0, User.username u0 = User.username u) us = []) as ->; [|done].
  apply head_None, head_filter_None. intros x Hx E. apply Hnew.
  rewrite <- E. by apply list_elem_of_fmap_2.
Qed.

(** Register then Login.  When the hashing primitives accept the hash of
    the password just registered, a login with the registered username and
    password succeeds on the world the registration left, and the session
    then holds the new user's id, username and role. *)
Theorem register_then_login hash check now (f : RegisterForm.t) (w : World) :
  truthy (hash (RegisterForm.password f)) = true →
  check (hash (RegisterForm.password f)) (RegisterForm.password f) = true →
  snd (register hash now f w) = st_success "Registration successful! You can now login." →
  let w1 := fst (register hash now f w) in
  let w2 := fst (login check (RegisterForm.username f) (RegisterForm.password f) w1) in
  snd (login check (RegisterForm.username f) (RegisterForm.password f) w1)
  = st_success ("Welcome back, " +:+ RegisterForm.username f +:+ "!")
  ∧ session_state w2
    = mkSessionState (Some (fresh_id (User.id <$> users (txn (db w)))))
        (Some (RegisterForm.username f)) (Some (RegisterForm.role f))
  ∧ db w2 = db w1 ∧ uploads w2 = uploads w1.
Proof.
  intros Hh Hc Hs w1 w2. subst w2 w1.
  destruct (register_inv hash now f w)
    as [[_ [Hv|Hd]]|(u & pp & pd & _ & Hw & Hu & _ & _ & _ & Hun & _ & _)].
  - unfold ValidationError in Hv. congruence.
  - unfold DuplicateError in Hd. rewrite Hs in Hd. by destruct Hd as [?|[?|?]].
  - cbn zeta in Hw.
    assert (Hname : User.username u = RegisterForm.username f) by by rewrite Hu.
    assert (Hlogin :
      login check (RegisterForm.username f) (RegisterForm.password f)
        (fst (register hash now f w))
      = (login_user_in_session u (fst (register hash now f w)),
         st_success ("Welcome back, " +:+ RegisterForm.username f +:+ "!"))).
    { rewrite Hw. unfold login. cbn [db txn]. rewrite <- Hname.
      rewrite (get_user_by_username_snoc _ (users (txn (db w))) u) by (by rewrite ?Hname).
      unfold check_password. rewrite Hu. cbn. by rewrite Hh, Hc. }
    rewrite Hlogin. cbn. by rewrite Hu.
Qed.

Lemma register_then_login_witness :
  snd (login toy_check "p1" "x" (fst (register toy_hash t_noon form_p1 w_empty)))
  = st_success "Welcome back, p1!".
Proof.
  apply (register_then_login toy_hash toy_check t_noon form_p1 w_empty); reflexivity.
Defined.

(** A registration with all three required fields whose username is taken
    is refused with the username message, and one whose username is free
    but whose email is taken with the email message; the world is returned
    as it was. *)
Theorem register_duplicate_account hash now (f : RegisterForm.t) (w : World) (u : User.t) :
  truthy (RegisterForm.username f) = true →
  truthy (RegisterForm.email f) = true →
  truthy (RegisterForm.password f) = true →
  u ∈ users (txn (db w)) →
  (User.username u = RegisterForm.username f →
   register hash now f w = (w, st_error "Username already exists. Try another."))
  ∧ (User.email u = RegisterForm.email f →
     (RegisterForm.username f ∉ User.username <$> users (txn (db w))) →
     register hash now f w = (w, st_error "Email already exists. Try another.")).
Proof.
  intros H1 H2 H3 Hu. unfold register, get_user_by_username, get_user_by_email.
  rewrite H1, H2, H3. cbn [negb orb]. split.
  - intros Hn. rewrite bool_decide_eq_true_2; [done|].
    apply is_Some_head_filter. rewrite <- Hn. by apply list_elem_of_fmap_2.
  - intros He Hfree. rewrite bool_decide_eq_false_2 by by apply not_is_Some_head_filter.
    rewrite bool_decide_eq_true_2; [done|].
    apply is_Some_head_filter. rewrite <- He. by apply list_elem_of_fmap_2.
Qed.

Lemma register_duplicate_account_witness :
  register toy_hash t_noon
    (RegisterForm.mk "patient" "alice" "other@lab.org" "pw" blank "Al" "Ice" (Date 1990 1 2)
       "other" blank blank blank blank blank) w_clinic
  = (w_clinic, st_error "Username already exists. Try another.").
Proof.
  apply (register_duplicate_account toy_hash t_noon _ w_clinic alice);
    try reflexivity. left.
Defined.

(** Registering twice.  After a successful registration, a second one with
    the same username (and all three required fields) is refused with the
    username message and leaves the world of the first as it is. *)
Theorem register_twice hash now1 now2 (f1 f2 : RegisterForm.t) (w : World) :
  snd (register hash now1 f1 w) = st_success "Registration successful! You can now login." →
  RegisterForm.username f2 = RegisterForm.username f1 →
  truthy (RegisterForm.email f2) = true →
  truthy (RegisterForm.password f2) = true →
  register hash now2 f2 (fst (register hash now1 f1 w))
  = (fst (register hash now1 f1 w), st_error "Username already exists. Try another.").
Proof.
  intros Hs Hname He Hp.
  destruct (register_inv hash now1 f1 w)
    as [[_ [Hv|Hd]]|(u & pp & pd & _ & Hw & Hu & Hun & _)].
  - unfold ValidationError in Hv. congruence.
  - unfold DuplicateError in Hd. rewrite Hs in Hd. by destruct Hd as [?|[?|?]].
  - cbn zeta in Hw. rewrite Hw. unfold register, get_user_by_username.
    rewrite Hname, Hun, He, Hp. cbn [negb orb db txn users].
    rewrite bool_decide_eq_true_2; [done|].
    apply is_Some_head_filter. rewrite fmap_app, elem_of_app. right.
    rewrite Hu. cbn. left.
Qed.

Lemma register_twice_witness :
  register toy_hash t_noon form_nameless (fst (register toy_hash t_noon form_p1 w_empty))
  = (fst (register toy_hash t_noon form_p1 w_empty),
     st_error "Username already exists. Try another.").
Proof.
  apply (register_twice toy_hash t_noon t_noon form_p1 form_nameless w_empty); reflexivity.
Defined.

(** ** Login and Logout *)

(** The Login handler never touches the database or the files.  It either
    fails, returning the world as it was with the one failure message, and
    then no user of that username passes the password check; or it
    succeeds for a user row of that username whose stored hash is non-empty
    and accepted for the password, and the session then holds that row's
    id, username and role. *)
Theorem login_outcomes check (username password : string) (w : World) :
  let r := login check username password w in
  db (fst r) = db w ∧ uploads (fst r) = uploads w
  ∧ ((r = (w, AuthFailure)
      ∧ ∀ user, get_user_by_username (txn (db w)) username = Some user →
                check_password check user password = false)
     ∨ ∃ user h,
         user ∈ users (txn (db w)) ∧ User.username user = username
         ∧ User.password_hash user = Some h ∧ truthy h = true ∧ check h password = true
         ∧ session_state (fst r)
           = mkSessionState (Some (User.id user)) (Some username) (Some (User.user_type user))
         ∧ snd r = st_success ("Welcome back, " +:+ username +:+ "!")).
Proof.
  intros r. subst r. unfold login.
  destruct (get_user_by_username _ _) as [user|] eqn:Hget; [|split; [done|]; split; [done|]; by left].
  destruct (check_password check user password) eqn:Hchk.
  - split; [done|]. split; [done|]. right.
    apply head_filter_Some in Hget as [Hname Hin].
    unfold check_password in Hchk.
    destruct (User.password_hash user) as [h|] eqn:Hh; [|done].
    destruct (truthy h) eqn:Ht; [|done]. cbn in Hchk.
    exists user, h. rewrite <- Hname. by cbn.
  - split; [done|]. split; [done|]. left. split; [done|]. by intros ? [= <-].
Qed.

(** After the "Logout now" button the session holds no user, whoever was
    or was not logged in: the database and the files are untouched, no
    current user resolves, the Dashboard asks to log in, and an upload is
    denied without any change. *)
Theorem logout_ends_session (w : World) :
  let w' := fst (logout true w) in
  db w' = db w ∧ uploads w' = uploads w
  ∧ current_user w' = None
  ∧ dashboard w' = v_please_login
  ∧ ∀ env f, upload_result env f w'
             = (w', st_warning "Access denied. Only logged-in lab technicians can upload results.").
Proof.
  intros w'. subst w'. unfold logout.
  destruct (truthy_id (ss_user_id (session_state w))) eqn:Hid; [done|].
  cbn [fst]. split; [done|]. split; [done|].
  unfold current_user, dashboard, upload_result. rewrite Hid.
  split; [|done].
  by destruct (ss_user_id (session_state w)) as [[|n]|].
Qed.

(** ** Upload Result *)

Lemma save_uploaded_file_raises now drawn uf w w' e :
  save_uploaded_file now drawn (Some uf) w = (w', inl e) → w' = w.
Proof.
  unfold save_uploaded_file. destruct (negb _); [by intros [= <-]|].
  case_bool_decide; [by intros [= <-]|].
  unfold mbind, M_bind, write_file. destruct (str_in NUL _); [by intros [= <-]|].
  case_bool_decide; [by intros [= <-]|done].
Qed.

(** The recipient expression of the handler, as a value. *)
Lemma choose_recipient_Some patient w u :
  patient_user (txn (db w)) patient = Some u →
  ∃ recipient, choose_recipient patient w = (w, inr recipient)
    ∧ (∀ ph, User.phone u = Some ph → ph ≠ EmptyString → recipient = ph)
    ∧ (User.phone u = None ∨ User.phone u = Some EmptyString → recipient = User.email u).
Proof.
  intros Hu. unfold choose_recipient, mbind, M_bind, read. rewrite Hu.
  destruct (User.phone u) as [[|c ph]|]; eexists; (split; [reflexivity|]); split;
    solve [ by intros ph' [= <-] | by intros [?|?] | done ].
Qed.

Lemma choose_recipient_None patient w :
  patient_user (txn (db w)) patient = None →
  choose_recipient patient w
  = (w, inl (AttributeError "'NoneType' object has no attribute 'email'")).
Proof. intros Hu. unfold choose_recipient, mbind, M_bind, read. by rewrite Hu. Qed.

(** The outcomes of the Upload Result handler: a refusal before the File
    Store, a refusal by the File Store, or a stored file followed by the
    commit of the LabResult row [lr] and then either a failure or the
    commit of the Notification row [nt]. *)
Lemma upload_result_inv env f w :
  let s := txn (db w) in
  let r := upload_result env f w in
  (fst r = w
   ∧ (snd r = st_warning "Access denied. Only logged-in lab technicians can upload results."
      ∨ snd r = st_error "Test type is required."
      ∨ snd r = st_error "Please select a result file to upload."))
  ∨ (∃ e, r = (db_rollback w, st_error ("Upload failed: " +:+ str_exn e)))
  ∨ ∃ uf lr nts,
      UploadForm.uploaded_file f = Some uf
      ∧ acting_lab_tech w
      ∧ (let stored := unique_filename (stamp env) (drawn env) (UploadedFile.name uf) in
         lr = LabResult.mk (fresh_id (LabResult.id <$> lab_results s))
                (UploadForm.patient_id f) (UploadForm.test_type f)
                (combine_min (UploadForm.test_date f)) (combine_min (UploadForm.result_date f))
                "completed" (Some stored) (UploadForm.notes f) (ss_username (session_state w))
         ∧ uploads (fst r) = <[stored := UploadedFile.read uf]> (uploads w))
      ∧ session_state (fst r) = session_state w
      ∧ db (fst r) = mkSession (with_result s lr nts) (with_result s lr nts)
      ∧ ((nts = [] ∧ ∃ e, snd r = st_error ("Upload failed: " +:+ str_exn e))
         ∨ (∃ nt, nts = [nt]
              ∧ Notification.id nt = fresh_id (Notification.id <$> notifications s)
              ∧ Notification.lab_result_id nt = LabResult.id lr
              ∧ snd r = st_success "Lab result uploaded successfully.")).
Proof.
  intros s r. subst r.
  destruct (upload_result env f w) as [w' shown] eqn:Hr. cbn [fst snd].
  unfold upload_result in Hr.
  destruct (truthy_id _) eqn:Hid; cbn [negb orb] in Hr;
    [|injection Hr as <- <-; left; split; [done|by left]].
  case_bool_decide as Hty; cbn [negb] in Hr;
    [|injection Hr as <- <-; left; split; [done|by left]].
  destruct (truthy (UploadForm.test_type f)) eqn:Htt; cbn [negb] in Hr;
    [|injection Hr as <- <-; left; split; [done|right; by left]].
  destruct (UploadForm.uploaded_file f) as [uf|] eqn:Hf;
    [|injection Hr as <- <-; left; split; [done|right; by right]].
  rewrite bool_decide_eq_false_2 in Hr by done.
  unfold upload_body in Hr. rewrite Hf in Hr.
  unfold mbind at 1 in Hr. unfold M_bind at 1 in Hr.
  destruct (save_uploaded_file _ _ _ _) as [w1 [e|stored]] eqn:Hsave.
  { apply save_uploaded_file_raises in Hsave as ->. injection Hr as <- <-.
    right; left. by exists e. }
  apply save_uploaded_file_inv in Hsave as [-> ->].
  right; right. revert Hr.
  unfold mbind, M_bind, read, add_lab_result, db_commit, with_txn, with_db.
  cbn -[choose_recipient unique_filename fresh_id]. fold s.
  destruct (get_patient _ _) as [patient|] eqn:Hpat.
  - destruct (patient_user s patient) as [u|] eqn:Hu.
    + edestruct (choose_recipient_Some patient) as (recipient & -> & _); [exact Hu|].
      cbn -[unique_filename fresh_id]. fold s. intros [= <- <-].
      eexists uf, _, [_]. split; [done|]. split; [by split|]. split; [by split|].
      split; [done|]. split; [done|]. right. by eexists.
    + rewrite choose_recipient_None by exact Hu.
      cbn -[unique_filename fresh_id]. fold s. intros [= <- <-].
      eexists uf, _, []. split; [done|]. split; [by split|]. split; [by split|].
      split; [done|]. split; [by unfold with_result; rewrite app_nil_r|].
      left. split; [done|].
      by exists (AttributeError "'NoneType' object has no attribute 'email'").
  - cbn -[unique_filename fresh_id]. fold s. intros [= <- <-].
    eexists uf, _, []. split; [done|]. split; [by split|]. split; [by split|].
    split; [done|]. split; [by unfold with_result; rewrite app_nil_r|].
    left. split; [done|].
    by exists (AttributeError "'NoneType' object has no attribute 'user'").
Qed.

(** The refusals that come before the File Store, in the order the handler
    tests them: anyone but a logged-in lab technician is denied; a lab
    technician with an empty test type, and then one without a file, gets
    the matching message.  Each returns the world exactly as it was. *)
Theorem upload_refusals env (f : UploadForm.t) (w : World) :
  (¬ acting_lab_tech w →
   upload_result env f w
   = (w, st_warning "Access denied. Only logged-in lab technicians can upload results."))
  ∧ (acting_lab_tech w → UploadForm.test_type f = EmptyString →
     upload_result env f w = (w, st_error "Test type is required."))
  ∧ (acting_lab_tech w → truthy (UploadForm.test_type f) = true →
     UploadForm.uploaded_file f = None →
     upload_result env f w = (w, st_error "Please select a result file to upload.")).
Proof.
  unfold acting_lab_tech, upload_result. split; [|split].
  - intros Hno. destruct (truthy_id _); [|done].
    case_bool_decide; [|done]. by destruct Hno.
  - intros [-> ->] ->. by rewrite bool_decide_eq_true_2.
  - intros [-> ->] -> ->. by rewrite bool_decide_eq_true_2.
Qed.

Lemma upload_refusals_witness :
  upload_result env0 form_bob w_alice
  = (w_alice, st_warning "Access denied. Only logged-in lab technicians can upload results.")
  ∧ upload_result env0 form_untyped w_ward_tech
    = (w_ward_tech, st_error "Test type is required.").
Proof.
  split.
  - apply (upload_refusals env0 form_bob w_alice). by intros [_ [=]].
  - apply (upload_refusals env0 form_untyped w_ward_tech); [|reflexivity].
    split; reflexivity.
Defined.

(** A valid upload succeeds: for a logged-in lab technician, a non-empty
    test type, a file with an allowed name and at most 16 MiB whose stored
    name the upload folder takes (no NUL, at most 255 bytes), and a patient
    row whose user row exists, the handler reports success. *)
Theorem upload_succeeds env (f : UploadForm.t) (w : World) (uf : UploadedFile.t)
    (patient : Patient.t) (user : User.t) :
  acting_lab_tech w →
  truthy (UploadForm.test_type f) = true →
  UploadForm.uploaded_file f = Some uf →
  allowed_file (UploadedFile.name uf) = true →
  Z.of_nat (length (UploadedFile.read uf)) ≤ 16 * 1024 * 1024 →
  writable_name (unique_filename (stamp env) (drawn env) (UploadedFile.name uf)) = true →
  get_patient (txn (db w)) (UploadForm.patient_id f) = Some patient →
  patient_user (txn (db w)) patient = Some user →
  snd (upload_result env f w) = st_success "Lab result uploaded successfully.".
Proof.
  intros [Hid Hty] Htt Hf Hok Hlen Hname Hpat Hu.
  unfold upload_result. rewrite Hid, Hty, Htt, Hf.
  rewrite bool_decide_eq_true_2 by done.
  rewrite bool_decide_eq_false_2 by done. cbn [negb orb].
  unfold upload_body. rewrite Hf. unfold mbind at 1. unfold M_bind at 1.
  rewrite save_accepts by done.
  unfold mbind, M_bind, read, add_lab_result, db_commit, with_txn, with_db.
  unfold get_patient in *.
  cbn -[choose_recipient unique_filename fresh_id]. rewrite Hpat.
  edestruct (choose_recipient_Some patient) as (recipient & -> & _); [exact Hu|].
  done.
Qed.

Lemma upload_succeeds_witness :
  snd (upload_result env0 form_bob w_ward_tech)
  = st_success "Lab result uploaded successfully.".
Proof.
  apply (upload_succeeds env0 form_bob w_ward_tech report bob_profile bob);
    try reflexivity.
  - split; reflexivity.
  - vm_compute. discriminate.
Defined.

(** Whatever its outcome, the Upload Result handler only appends: from a
    world without pending changes, users, patients and doctors are as
    before, at most one LabResult row and at most one Notification row are
    added behind the existing ones, and a Notification is never added
    without its LabResult. *)
Theorem upload_only_appends env (f : UploadForm.t) (w : World) :
  quiescent w →
  let s := persisted (db w) in
  let s' := persisted (db (fst (upload_result env f w))) in
  users s' = users s ∧ patients s' = patients s ∧ doctors s' = doctors s
  ∧ ∃ lrs nts, lab_results s' = lab_results s ++ lrs
               ∧ notifications s' = notifications s ++ nts
               ∧ (length nts ≤ length lrs ≤ 1)%nat.
Proof.
  intros Hq s s'. subst s s'. unfold quiescent in Hq.
  destruct (upload_result_inv env f w)
    as [[-> _]|[[e ->]|(uf & lr & nts & _ & _ & _ & _ & -> & Hn)]].
  - repeat (split; [done|]). exists [], []. rewrite !app_nil_r. cbn. auto with lia.
  - cbn. repeat (split; [done|]). exists [], []. rewrite !app_nil_r. cbn. auto with lia.
  - cbn. rewrite Hq. repeat (split; [done|]). exists [lr], nts.
    split; [done|]. split; [done|].
    destruct Hn as [[-> _]|(nt & -> & _)]; cbn; lia.
Qed.

Lemma upload_only_appends_witness :
  users (persisted (db (fst (upload_result env0 form_bob w_ward_tech)))) = [alice; bob; tech].
Proof.
  apply (upload_only_appends env0 form_bob w_ward_tech). reflexivity.
Defined.

(** The Upload Result handler keeps the constraints of the result tables:
    ids stay unique and every notification points to a result row. *)
Theorem upload_keeps_results_ok env (f : UploadForm.t) (w : World) :
  quiescent w →
  results_ok (persisted (db w)) →
  results_ok (persisted (db (fst (upload_result env f w)))).
Proof.
  intros Hq [Hr Hn Hfk]. unfold quiescent in Hq.
  destruct (upload_result_inv env f w)
    as [[-> _]|[[e ->]|(uf & lr & nts & _ & _ & [Hlr _] & _ & -> & Hnts)]];
    [done..|].
  cbn. rewrite Hq.
  assert (Hid : LabResult.id lr = fresh_id (LabResult.id <$> lab_results (persisted (db w)))).
  { rewrite Hlr. cbn. by rewrite Hq. }
  assert (Hold : ∀ n, n ∈ notifications (persisted (db w)) →
            ∃ r, r ∈ lab_results (persisted (db w)) ++ [lr]
                 ∧ LabResult.id r = Notification.lab_result_id n).
  { intros n Hin. destruct (Hfk n Hin) as (r & ? & ?). exists r.
    rewrite elem_of_app. auto. }
  split; cbn.
  - apply NoDup_fmap_snoc; [done|]. rewrite Hid. apply fresh_id_fresh.
  - destruct Hnts as [[-> _]|(nt & -> & Hnid & _)]; [by rewrite app_nil_r|].
    apply NoDup_fmap_snoc; [done|]. rewrite Hnid, Hq. apply fresh_id_fresh.
  - destruct Hnts as [[-> _]|(nt & -> & _ & Hnr & _)]; [by rewrite app_nil_r|].
    intros n [Hin| ->%list_elem_of_singleton]%elem_of_app; [by apply Hold|].
    exists lr. rewrite elem_of_app, list_elem_of_singleton. auto.
Qed.

Lemma s_ward_results_ok : results_ok s_ward.
Proof.
  split; try (apply (bool_decide_eq_true_1 _); reflexivity).
  intros n []%elem_of_nil.
Qed.

Lemma upload_keeps_results_ok_witness :
  results_ok (persisted (db (fst (upload_result env0 form_bob w_ward_tech)))).
Proof.
  apply (upload_keeps_results_ok env0 form_bob w_ward_tech);
    [reflexivity|exact s_ward_results_ok].
Defined.

(** No handler leaves a change pending: from a world without pending
    changes, Register, Login, Logout and Upload Result each return such a
    world, whatever their outcome. *)
Theorem handlers_keep_quiescent (w : World) :
  quiescent w →
  (∀ hash now f, quiescent (fst (register hash now f w)))
  ∧ (∀ check username password, quiescent (fst (login check username password w)))
  ∧ (∀ pressed, quiescent (fst (logout pressed w)))
  ∧ (∀ env f, quiescent (fst (upload_result env f w))).
Proof.
  intros Hq. split; [|split; [|split]].
  - intros hash now f.
    destruct (register_inv hash now f w) as [[-> _]|(u & pp & pd & _ & Hw & _)]; [done|].
    cbn zeta in Hw. by rewrite Hw.
  - intros check username password. unfold login.
    destruct (get_user_by_username _ _); [|done]. by destruct (check_password _ _ _).
  - intros pressed. unfold logout. destruct (truthy_id _); [|done]. by destruct pressed.
  - intros env f.
    destruct (upload_result_inv env f w)
      as [[-> _]|[[e ->]|(uf & lr & nts & _ & _ & _ & _ & Hdb & _)]]; [done|done|].
    unfold quiescent. by rewrite Hdb.
Qed.

Lemma handlers_keep_quiescent_witness :
  quiescent (fst (upload_result env0 (form_with report) w_orphan)).
Proof. apply (handlers_keep_quiescent w_orphan). reflexivity. Defined.

(** Upload then download.  After a successful upload, the last LabResult
    row is the new one, and the download button the Dashboard builds for
    it carries the bytes that were uploaded, under the stored name. *)
Theorem upload_then_download env (f : UploadForm.t) (w : World) (uf : UploadedFile.t) :
  UploadForm.uploaded_file f = Some uf →
  snd (upload_result env f w) = st_success "Lab result uploaded successfully." →
  let w' := fst (upload_result env f w) in
  ∃ lr, last (lab_results (persisted (db w'))) = Some lr
        ∧ LabResult.patient_id lr = UploadForm.patient_id f
        ∧ render_download w' lr
          = download_button (UploadedFile.read uf)
              (unique_filename (stamp env) (drawn env) (UploadedFile.name uf)).
Proof.
  intros Hf Hs w'. subst w'.
  destruct (upload_result_inv env f w)
    as [[_ Hm]|[[e Hr]|(uf' & lr & nts & Hf' & _ & [Hlr Hup] & _ & Hdb & _)]].
  - rewrite Hs in Hm. by destruct Hm as [?|[?|?]].
  - rewrite Hr in Hs. done.
  - rewrite Hf in Hf'. injection Hf' as <-.
    exists lr. rewrite Hdb. cbn [persisted with_result lab_results].
    split; [apply last_snoc|]. split; [by rewrite Hlr|].
    unfold render_download. rewrite Hup, Hlr. cbn [LabResult.file_path].
    by rewrite lookup_insert_eq.
Qed.

Lemma upload_then_download_witness :
  ∃ lr, last (lab_results (persisted (db (fst (upload_result env0 form_bob w_ward_tech)))))
        = Some lr
        ∧ LabResult.patient_id lr = 2%nat
        ∧ render_download (fst (upload_result env0 form_bob w_ward_tech)) lr
          = download_button (UploadedFile.read report) "20240309070559_00ab10ff7e01_report.pdf".
Proof.
  apply (upload_then_download env0 form_bob w_ward_tech report); vm_compute; reflexivity.
Defined.

(** The File Store and the database are not joined: when the file was
    accepted and written (allowed name, at most 16 MiB, a stored name the
    upload folder takes) and the patient row or its user row is missing,
    the handler reports a failure, yet the uploaded file stays in the
    upload folder and the LabResult row stays persisted, without a
    Notification. *)
Theorem upload_late_failure env (f : UploadForm.t) (w : World) (uf : UploadedFile.t) :
  quiescent w →
  acting_lab_tech w →
  truthy (UploadForm.test_type f) = true →
  UploadForm.uploaded_file f = Some uf →
  allowed_file (UploadedFile.name uf) = true →
  Z.of_nat (length (UploadedFile.read uf)) ≤ 16 * 1024 * 1024 →
  writable_name (unique_filename (stamp env) (drawn env) (UploadedFile.name uf)) = true →
  (∀ patient, get_patient (txn (db w)) (UploadForm.patient_id f) = Some patient →
              patient_user (txn (db w)) patient = None) →
  let w' := fst (upload_result env f w) in
  let stored := unique_filename (stamp env) (drawn env) (UploadedFile.name uf) in
  (∃ e, snd (upload_result env f w) = st_error ("Upload failed: " +:+ str_exn e))
  ∧ uploads w' !! stored = Some (UploadedFile.read uf)
  ∧ notifications (persisted (db w')) = notifications (persisted (db w))
  ∧ ∃ lr, lab_results (persisted (db w')) = lab_results (persisted (db w)) ++ [lr]
          ∧ LabResult.file_path lr = Some stored.
Proof.
  intros Hq [Hid Hty] Htt Hf Hok Hlen Hname Hmiss w' stored. subst w' stored.
  unfold quiescent in Hq.
  destruct (upload_result env f w) as [w' shown] eqn:Hr. cbn [fst snd]. revert Hr.
  unfold upload_result. rewrite Hid, Hty, Htt, Hf.
  rewrite bool_decide_eq_true_2 by done.
  rewrite bool_decide_eq_false_2 by done. cbn [negb orb].
  unfold upload_body. rewrite Hf. unfold mbind at 1. unfold M_bind at 1.
  rewrite save_accepts by done.
  unfold mbind, M_bind, read, add_lab_result, db_commit, with_txn, with_db.
  unfold get_patient in *.
  cbn -[choose_recipient unique_filename fresh_id].
  destruct (head (filter _ (patients (txn (db w))))) as [patient|] eqn:Hpat.
  - rewrite choose_recipient_None by (by apply Hmiss).
    cbn -[unique_filename fresh_id]. rewrite <- Hq. intros [= <- <-]. cbn.
    split; [by exists (AttributeError "'NoneType' object has no attribute 'email'")|].
    split; [apply lookup_insert_eq|]. split; [done|]. by eexists.
  - cbn -[unique_filename fresh_id]. rewrite <- Hq. intros [= <- <-]. cbn.
    split; [by exists (AttributeError "'NoneType' object has no attribute 'user'")|].
    split; [apply lookup_insert_eq|]. split; [done|]. by eexists.
Qed.

Lemma upload_late_failure_witness :
  uploads (fst (upload_result env0 (form_with report) w_orphan))
    !! "20240309070559_00ab10ff7e01_report.pdf"
  = Some (UploadedFile.read report).
Proof.
  apply (upload_late_failure env0 (form_with report) w_orphan report); try reflexivity.
  - split; reflexivity.
  - vm_compute. discriminate.
  - intros patient [= <-]. reflexivity.
Defined.

(** ** The Dashboard *)

Lemma lex_le_total a b : lex_le a b = true ∨ lex_le b a = true.
Proof.
  revert b. induction a as [|x a IH]; intros [|y b]; simpl; auto.
  repeat case_bool_decide; auto; lia.
Qed.

Lemma lex_le_trans a b c :
  length a = length b → length b = length c →
  lex_le a b = true → lex_le b c = true → lex_le a c = true.
Proof.
  revert b c. induction a as [|x a IH]; intros [|y b] [|z c]; simpl; try done.
  intros [= Hab] [= Hbc].
  repeat case_bool_decide; try done; try lia.
  by apply IH.
Qed.

Lemma newer_first_total : Total newer_first.
Proof. intros a b. unfold newer_first, datetime_le. apply lex_le_total. Qed.

Lemma newer_first_trans : Transitive newer_first.
Proof.
  intros a b c Hab Hbc. unfold newer_first, datetime_le in *.
  by apply (lex_le_trans _ (dt_fields (LabResult.test_date b))).
Qed.

Lemma insert_newest_first_sorted row rows :
  StronglySorted newer_first rows →
  StronglySorted newer_first (insert_newest_first row rows).
Proof.
  induction 1 as [|x rows Hrows IH Hx]; simpl.
  - by repeat constructor.
  - case_decide as Hle.
    + constructor; [by constructor|]. constructor; [done|].
      eapply Forall_impl; [exact Hx|]. intros y Hxy.
      by apply (newer_first_trans row x y).
    + constructor; [done|]. rewrite insert_newest_first_perm. constructor; [|done].
      by destruct (newer_first_total row x).
Qed.

Lemma order_by_sorted rows : StronglySorted newer_first (order_by_test_date_desc rows).
Proof.
  unfold order_by_test_date_desc. induction rows as [|x rows IH]; [constructor|].
  simpl. by apply insert_newest_first_sorted.
Qed.

(** The lists the Dashboard orders are ordered newest first: in the
    patient view, the doctor view and the completed list of the lab
    technician view, no row is older than a row listed after it. *)
Theorem dashboard_newest_first (w : World) :
  match dashboard w with
  | v_patient _ results | v_doctor results => StronglySorted newer_first results
  | v_lab_tech _ completed => StronglySorted newer_first completed
  | _ => True
  end.
Proof.
  unfold dashboard. destruct (negb _); [done|].
  destruct (current_user w) as [user|]; [|done].
  repeat case_bool_decide; try done; try apply order_by_sorted.
  destruct (head _); [apply order_by_sorted|done].
Qed.



(** A patient sees all of their own results: when no two patient rows
    share a user, the rows shown to a patient are, each exactly once, the
    rows of the table that point to the profile of that user. *)
Theorem patient_sees_all_own (w : World) (user : User.t) (p : Patient.t) :
  current_user w = Some user →
  User.user_type user = "patient" →
  NoDup (Patient.user_id <$> patients (txn (db w))) →
  p ∈ patients (txn (db w)) →
  Patient.user_id p = User.id user →
  rows_shown (dashboard w)
  ≡ₚ filter (λ r, LabResult.patient_id r = Patient.id p) (lab_results (txn (db w))).
Proof.
  intros Hcur Hrole Huniq Hp Hpu. unfold dashboard.
  destruct (current_user_Some _ _ Hcur) as (-> & _ & _). rewrite Hcur, Hrole.
  cbn [negb]. rewrite bool_decide_eq_true_2 by done.
  destruct (head (filter _ (patients _))) as [p0|] eqn:Hp0.
  - apply head_filter_Some in Hp0 as [Hp0u Hp0].
    assert (p0 = p) as ->.
    { apply (NoDup_fmap_eq Patient.user_id _ _ _ Huniq Hp0 Hp). congruence. }
    apply order_by_perm.
  - pose proof (proj1 (head_filter_None _ _) Hp0) as Hall. by destruct (Hall p Hp).
Qed.

Lemma patient_sees_all_own_witness :
  rows_shown (dashboard w_alice)
  ≡ₚ filter (λ r, LabResult.patient_id r = Patient.id alice_profile)
       (lab_results (txn (db w_alice))).
Proof.
  apply (patient_sees_all_own w_alice alice alice_profile); try reflexivity.
  - apply (bool_decide_eq_true_1 _). reflexivity.
  - left.
Defined.



(** Rows are shown only to a user that resolves and has one of the three
    roles: without a session user id, with one that matches no user row,
    or with another role, the Dashboard hands no row to the page. *)
Theorem rows_need_a_known_user (w : World) :
  rows_shown (dashboard w) ≠ [] →
  ∃ user, current_user w = Some user
          ∧ ss_user_id (session_state w) = Some (User.id user)
          ∧ User.user_type user ∈ ["patient"; "doctor"; "lab_tech"].
Proof.
  unfold dashboard. destruct (negb _); [done|].
  destruct (current_user w) as [user|] eqn:Hcur; [|done].
  destruct (current_user_Some _ _ Hcur) as (_ & Hid & _).
  intros Hrows. exists user. split; [done|]. split; [done|].
  revert Hrows. rewrite !elem_of_cons.
  repeat case_bool_decide; auto. done.
Qed.

Lemma rows_need_a_known_user_witness :
  ∃ user, current_user w_alice = Some user
          ∧ ss_user_id (session_state w_alice) = Some (User.id user)
          ∧ User.user_type user ∈ ["patient"; "doctor"; "lab_tech"].
Proof. apply (rows_need_a_known_user w_alice). vm_compute. discriminate. Defined.

Lemma current_user_login (u : User.t) (w : World) :
  User.id u ≠ 0%nat →
  get_user (txn (db w)) (User.id u) = Some u →
  truthy_id (ss_user_id (session_state (login_user_in_session u w))) = true
  ∧ current_user (login_user_in_session u w) = Some u.
Proof.
  intros Hnz Hget. unfold current_user, login_user_in_session.
  cbn [session_state ss_user_id db]. by destruct (User.id u).
Qed.

(** The uploaded result reaches the patient.  After a successful upload
    for a patient row whose user has the role patient, once that user is
    logged in, the Dashboard lists the new row and its download button
    carries the uploaded bytes. *)
Theorem uploaded_result_reaches_patient env (f : UploadForm.t) (w : World)
    (uf : UploadedFile.t) (patient : Patient.t) (user : User.t) :
  snd (upload_result env f w) = st_success "Lab result uploaded successfully." →
  UploadForm.uploaded_file f = Some uf →
  get_patient (txn (db w)) (UploadForm.patient_id f) = Some patient →
  patient_user (txn (db w)) patient = Some user →
  User.user_type user = "patient" →
  User.id user ≠ 0%nat →
  NoDup (Patient.user_id <$> patients (txn (db w))) →
  let w' := login_user_in_session user (fst (upload_result env f w)) in
  ∃ lr, lr ∈ rows_shown (dashboard w')
        ∧ LabResult.test_type lr = UploadForm.test_type f
        ∧ render_download w' lr
          = download_button (UploadedFile.read uf)
              (unique_filename (stamp env) (drawn env) (UploadedFile.name uf)).
Proof.
  intros Hs Hf Hpat Huser Hrole Hnz Huniq w'. subst w'.
  destruct (upload_result_inv env f w)
    as [[_ Hm]|[[e Hr]|(uf' & lr & nts & Hf' & _ & [Hlr Hup] & _ & Hdb & _)]].
  { rewrite Hs in Hm. by destruct Hm as [?|[?|?]]. }
  { rewrite Hr in Hs. done. }
  rewrite Hf in Hf'. injection Hf' as <-.
  apply head_filter_Some in Hpat as [Hpid Hpin].
  unfold patient_user, get_user in Huser.
  pose proof (head_filter_Some _ _ _ Huser) as [Huid Huin].
  exists lr. split; [|split].
  - destruct (current_user_login user (fst (upload_result env f w)) Hnz) as [Hid Hcur].
    { rewrite Hdb. unfold get_user. cbn [txn with_result users]. by rewrite Huid. }
    unfold dashboard. rewrite Hid, Hcur, Hrole. cbn [negb].
    rewrite bool_decide_eq_true_2 by done.
    unfold login_user_in_session. cbn [db]. rewrite Hdb.
    cbn [txn with_result users patients lab_results].
    destruct (head (filter _ (patients _))) as [p0|] eqn:Hp0.
    + apply head_filter_Some in Hp0 as [Hp0u Hp0].
      assert (p0 = patient) as ->.
      { apply (NoDup_fmap_eq Patient.user_id _ _ _ Huniq Hp0 Hpin). congruence. }
      cbn [rows_shown]. rewrite order_by_test_date_desc_elem, list_elem_of_filter.
      split; [by rewrite Hlr, Hpid|].
      rewrite elem_of_app, list_elem_of_singleton. by right.
    + pose proof (proj1 (head_filter_None _ _) Hp0) as Hall.
      by destruct (Hall patient Hpin).
  - by rewrite Hlr.
  - unfold render_download, login_user_in_session. cbn [uploads].
    rewrite Hup, Hlr. cbn [LabResult.file_path]. by rewrite lookup_insert_eq.
Qed.

Lemma uploaded_result_reaches_patient_witness :
  ∃ lr, lr ∈ rows_shown (dashboard (login_user_in_session bob
                                    (fst (upload_result env0 form_bob w_ward_tech))))
        ∧ LabResult.test_type lr = "MRI"
        ∧ render_download (login_user_in_session bob
                             (fst (upload_result env0 form_bob w_ward_tech))) lr
          = download_button (UploadedFile.read report)
              "20240309070559_00ab10ff7e01_report.pdf".
Proof.
  apply (uploaded_result_reaches_patient env0 form_bob w_ward_tech report bob_profile bob);
    try reflexivity.
  - discriminate.
  - apply (bool_decide_eq_true_1 _). reflexivity.
Defined.

(** ** Lookups by key *)

(** The three lookups by a unique key return [None] exactly when no row of
    the table holds the key, and otherwise a row of the table that holds
    it. *)
Theorem lookups_by_key (s : Store) (key : string) :
  (get_user_by_username s key = None ↔ key ∉ User.username <$> users s)
  ∧ (get_user_by_email s key = None ↔ key ∉ User.email <$> users s)
  ∧ (get_doctor_by_license s key = None ↔ key ∉ Doctor.license_number <$> doctors s)
  ∧ (∀ u, get_user_by_username s key = Some u → u ∈ users s ∧ User.username u = key)
  ∧ (∀ u, get_user_by_email s key = Some u → u ∈ users s ∧ User.email u = key)
  ∧ (∀ d, get_doctor_by_license s key = Some d →
          d ∈ doctors s ∧ Doctor.license_number d = key).
Proof.
  unfold get_user_by_username, get_user_by_email, get_doctor_by_license.
  rewrite !eq_None_not_Some, !not_is_Some_head_filter.
  do 3 (split; [done|]).
  split; [|split]; intros x [Hkey Hin]%head_filter_Some; done.
Qed.

Lemma lookups_by_key_witness :
  alice ∈ users s_clinic ∧ User.username alice = "alice".
Proof. apply (lookups_by_key s_clinic "alice"). reflexivity. Defined.
